(** * django-imagefield: derivative naming, generation and batch processing

    A shallow embedding of [imagefield/fields.py] and of the management
    command [process_all_imagefields.py], together with the parts of the
    Python/Django runtime they call ([hashlib.sha1],
    [urlsafe_base64_encode], [os.path.splitext], [str.split], ...).

    Conventions of the embedding:
    - a Python [str] is represented by the [string] of its UTF-8 bytes, so
      [s.encode('utf-8')] reads these bytes off; the string operations of
      the source that are modelled ([split], [rfind], slicing of ASCII
      text, ['%s' % ...]) commute with that encoding;
    - a 32-bit word is a [Z] with the wrap-around written out;
    - code that can raise returns a [result]; code that touches storage
      threads a [World] and logs the storage operations it performs. *)

From Stdlib Require Import ZArith List String Ascii Lia Bool.
From stdpp Require Import gmap strings list fin_maps pretty.

Local Open Scope Z_scope.

(** ** Exceptions and the error monad *)

(** The subclasses of Python's [Exception] that the modelled code can
    raise. *)
Inductive exn : Type :=
| AttributeError
| ValueError
| KeyError
| NameError
| TypeError
| FileNotFoundError
| DecodeError        (* PIL cannot identify/open the image *)
| ConfigurationError (* build_handler: unknown processor *)
| ProcessingError    (* a processor or the encoder failed *)
| StorageError.      (* the storage backend failed *)

Inductive result (A : Type) : Type :=
| Ok (a : A)
| Raise (e : exn).
Arguments Ok {A} a.
Arguments Raise {A} e.

Definition rbind {A B} (r : result A) (k : A -> result B) : result B :=
  match r with
  | Ok a => k a
  | Raise e => Raise e
  end.

Fixpoint rmapM {A B} (f : A -> result B) (l : list A) : result (list B) :=
  match l with
  | [] => Ok []
  | x :: r =>
      rbind (f x) (fun y => rbind (rmapM f r) (fun ys => Ok (y :: ys)))
  end.

(** ** Python string primitives *)

Module PyStr.

Definition chars (s : string) : list ascii := list_ascii_of_string s.
Definition of_chars (l : list ascii) : string := string_of_list_ascii l.

(** [s.encode('utf-8')]: the bytes of the text, as integers in [0, 256). *)
Definition encode_utf8 (s : string) : list Z :=
  map (fun c => Z.of_N (N_of_ascii c)) (chars s).

(** [s[:n]] and [s[n:]] for [0 <= n]. *)
Definition take (n : nat) (s : string) : string := of_chars (firstn n (chars s)).
Definition drop (n : nat) (s : string) : string := of_chars (skipn n (chars s)).

(** [sep.join(parts)]. *)
Fixpoint join (sep : string) (parts : list string) : string :=
  match parts with
  | [] => EmptyString
  | [p] => p
  | p :: r => p +:+ sep +:+ join sep r
  end.

(** [s.split(c)] for a one-character separator: never the empty list,
    [''.split('x') = ['']]. *)
Fixpoint split_chars (c : ascii) (cur : list ascii) (l : list ascii) : list string :=
  match l with
  | [] => [of_chars (rev cur)]
  | a :: r =>
      if Ascii.eqb a c then of_chars (rev cur) :: split_chars c [] r
      else split_chars c (a :: cur) r
  end.

Definition split (c : ascii) (s : string) : list string :=
  split_chars c [] (chars s).

(** [s.rfind(c)]: the greatest index of [c] in [s], or [-1]. *)
Fixpoint rfind_from (c : ascii) (i : Z) (best : Z) (l : list ascii) : Z :=
  match l with
  | [] => best
  | a :: r => rfind_from c (i + 1) (if Ascii.eqb a c then i else best) r
  end.

Definition rfind (c : ascii) (s : string) : Z := rfind_from c 0 (-1) (chars s).

(** [s.startswith(p)]. *)
Definition startswith (p s : string) : bool := String.prefix p s.

(** [s.rstrip(cs)]: drop the trailing characters that occur in [cs]. *)
Definition in_chars (cs : list ascii) (a : ascii) : bool :=
  existsb (Ascii.eqb a) cs.

Fixpoint lstrip_chars (cs : list ascii) (l : list ascii) : list ascii :=
  match l with
  | [] => []
  | a :: r => if in_chars cs a then lstrip_chars cs r else l
  end.

Definition rstrip_chars (cs : list ascii) (l : list ascii) : list ascii :=
  rev (lstrip_chars cs (rev l)).

(** [s.lower()] on ASCII text (model labels and field names); bytes
    outside [A-Z] are left as they are. *)
Definition lower_char (a : ascii) : ascii :=
  let n := N_of_ascii a in
  if ((65 <=? n) && (n <=? 90))%N then ascii_of_N (n + 32) else a.

Definition lower (s : string) : string := of_chars (map lower_char (chars s)).

End PyStr.

(** ** [hashlib.sha1] (FIPS 180-4) on a list of bytes *)

Module SHA1.

Definition w32 (x : Z) : Z := x mod 2 ^ 32.

Definition rotl (n x : Z) : Z :=
  w32 (Z.lor (Z.shiftl x n) (Z.shiftr x (32 - n))).

Definition f (t : nat) (b c d : Z) : Z :=
  if (t <? 20)%nat then Z.lor (Z.land b c) (Z.land (Z.lxor b 0xFFFFFFFF) d)
  else if (t <? 40)%nat then Z.lxor (Z.lxor b c) d
  else if (t <? 60)%nat then
    Z.lor (Z.lor (Z.land b c) (Z.land b d)) (Z.land c d)
  else Z.lxor (Z.lxor b c) d.

Definition k (t : nat) : Z :=
  if (t <? 20)%nat then 0x5A827999
  else if (t <? 40)%nat then 0x6ED9EBA1
  else if (t <? 60)%nat then 0x8F1BBCDC
  else 0xCA62C1D6.

(** The five chaining words. *)
Definition state : Type := Z * Z * Z * Z * Z.

Definition init : state :=
  (0x67452301, 0xEFCDAB89, 0x98BADCFE, 0x10325476, 0xC3D2E1F0).

(** Padding: a [0x80] byte, zeros up to 56 mod 64, the bit length on 64
    bits, big-endian. *)
Definition be_bytes (n : nat) (x : Z) : list Z :=
  map (fun i => Z.shiftr x (8 * Z.of_nat (n - 1 - i)) mod 256) (seq 0 n).

Definition pad (msg : list Z) : list Z :=
  let len := Z.of_nat (length msg) in
  msg ++ [0x80] ++ repeat 0 (Z.to_nat ((55 - len) mod 64))
      ++ be_bytes 8 (8 * len).

(** Big-endian 32-bit words of a block. *)
Fixpoint words (l : list Z) : list Z :=
  match l with
  | a :: b :: c :: d :: r =>
      (Z.shiftl a 24 + Z.shiftl b 16 + Z.shiftl c 8 + d) :: words r
  | _ => []
  end.

(** One of the 80 rounds; [w] is the window [W[t] .. W[t+15]] of the
    message schedule. *)
Definition round (st : state * list Z) (t : nat) : state * list Z :=
  let '((a, b, c, d, e), w) := st in
  let wt := nth 0 w 0 in
  let nw := rotl 1 (Z.lxor (Z.lxor (Z.lxor (nth 13 w 0) (nth 8 w 0))
                                   (nth 2 w 0)) (nth 0 w 0)) in
  let temp := w32 (rotl 5 a + f t b c d + e + k t + wt) in
  ((temp, a, rotl 30 b, c, d), tl w ++ [nw]).

Definition compress (h : state) (block : list Z) : state :=
  let '(h0, h1, h2, h3, h4) := h in
  let '((a, b, c, d, e), _) :=
    fold_left round (seq 0 80) (h, words block) in
  (w32 (h0 + a), w32 (h1 + b), w32 (h2 + c), w32 (h3 + d), w32 (h4 + e)).

Fixpoint blocks (fuel : nat) (l : list Z) : list (list Z) :=
  match fuel with
  | O => []
  | S n =>
      match l with
      | [] => []
      | _ => firstn 64 l :: blocks n (skipn 64 l)
      end
  end.

Definition hash (msg : list Z) : state :=
  let p := pad msg in
  fold_left compress (blocks (length p) p) init.

(** [.digest()]: the 20 bytes of the five words, big-endian. *)
Definition digest (msg : list Z) : list Z :=
  let '(h0, h1, h2, h3, h4) := hash msg in
  be_bytes 4 h0 ++ be_bytes 4 h1 ++ be_bytes 4 h2 ++ be_bytes 4 h3
    ++ be_bytes 4 h4.

End SHA1.

(** ** [django.utils.http.urlsafe_base64_encode] *)

Module Base64.

(** The URL-safe alphabet of RFC 4648, section 5. *)
Definition alphabet : list ascii :=
  PyStr.chars
    "ABCDEFGHIJKLMNOPQRSTUVWXYZabcdefghijklmnopqrstuvwxyz0123456789-_".

Definition char (n : Z) : ascii := nth (Z.to_nat n) alphabet "A"%char.

(** [base64.urlsafe_b64encode]: three bytes give four characters; a tail
    of one or two bytes is padded with ['=']. *)
Fixpoint encode (l : list Z) : list ascii :=
  match l with
  | [] => []
  | [a] =>
      [char (Z.shiftr a 2); char (Z.shiftl (Z.land a 3) 4); "="; "="]%char
  | [a; b] =>
      [char (Z.shiftr a 2);
       char (Z.lor (Z.shiftl (Z.land a 3) 4) (Z.shiftr b 4));
       char (Z.shiftl (Z.land b 15) 2); "="%char]
  | a :: b :: c :: r =>
      char (Z.shiftr a 2)
      :: char (Z.lor (Z.shiftl (Z.land a 3) 4) (Z.shiftr b 4))
      :: char (Z.lor (Z.shiftl (Z.land b 15) 2) (Z.shiftr c 6))
      :: char (Z.land c 63)
      :: encode r
  end.

(** Django's wrapper strips the trailing padding and newlines:
    [base64.urlsafe_b64encode(s).rstrip(b'\n=')]. *)
Definition urlsafe_base64_encode (l : list Z) : list ascii :=
  PyStr.rstrip_chars ["010"; "="]%char (encode l).

End Base64.

(** ** [imagefield.fields.urlhash] *)

(** [[
def urlhash(str):
    digest = hashlib.sha1(str.encode('utf-8')).digest()
    return urlsafe_base64_encode(digest).decode('ascii')
]]
    [urlsafe_base64_encode] is the one of the Django releases the module
    was written for (before 2.2): it returns the ASCII bytes of the
    encoding, which [decode('ascii')] turns into text. *)
Definition urlhash (str : string) : string :=
  let digest := SHA1.digest (PyStr.encode_utf8 str) in
  PyStr.of_chars (Base64.urlsafe_base64_encode digest).

(** ** The runtime the engine is written against *)

(** Python's [float]: the type, [float(s)] (which raises [ValueError] on a
    string that is no float literal), [repr(x)] and the literal [0.5]. *)
Class FloatModel : Type := {
  float : Type;
  float_of_str : string -> result float;
  float_repr : float -> string;
  float_half : float;
}.

(** What [process] uses of PIL and of [imagefield.processing] (the module
    that defines [build_handler] is not part of these sources).  A
    processor is an opaque entry of a format's list; [str_processor] is
    Python's [str(p)]. *)
Class Imaging {FM : FloatModel} : Type := {
  Processor : Type;
  str_processor : Processor -> string;
  Image : Type;
  SaveKwargs : Type;
  no_kwargs : SaveKwargs;                                  (* {} *)
  image_open : list Z -> result Image;                     (* Image.open(orig) *)
  image_format : Image -> string;                          (* image.format *)
  build_handler :
    list Processor ->
    result (Image -> list float * SaveKwargs ->
            result (Image * (list float * SaveKwargs)));
  image_save : Image -> string -> SaveKwargs -> result (list Z);
}.

(** ** Data model *)

(** The values an attribute of a model instance can hold, as far as the
    engine looks at them. *)
Inductive pyval : Type :=
| PyNone
| PyStr (s : string).

(** A model instance: its attributes. *)
Record Instance : Type := {
  inst_attrs : gmap string pyval;
}.

(** [getattr(instance, attr)]; [None] here is Python's [AttributeError]. *)
Definition getattr (i : Instance) (attr : string) : option pyval :=
  inst_attrs i !! attr.

(** ** Storage, database and the state-and-error monad *)

(** The operations of a run that the claims talk about: calls to the
    storage backend ([storage.exists], [open], [delete], [save], [url])
    and the three stages of a generation (decode with PIL, run the
    processor pipeline, encode). *)
Inductive op : Type :=
| OpExists (path : string)
| OpOpen (path : string)
| OpDelete (path : string)
| OpSave (path : string) (content : list Z)
| OpUrl (path : string)
| OpDecode
| OpPipeline
| OpEncode.

(** The world a call runs in: the files of the storage backend, the paths
    on which the backend currently fails, the records of each model (by
    model label) and the log of operations performed so far. *)
Record World : Type := {
  files : gmap string (list Z);
  broken : gset string;
  db : gmap string (list Instance);
  log : list op;
}.

Definition set_files (fs : gmap string (list Z)) (w : World) : World :=
  {| files := fs; broken := broken w; db := db w; log := log w |}.

Definition M (A : Type) : Type := World -> result A * World.

Definition ret {A} (a : A) : M A := fun w => (Ok a, w).
Definition raise {A} (e : exn) : M A := fun w => (Raise e, w).
Definition lift {A} (r : result A) : M A := fun w => (r, w).

Definition bind {A B} (m : M A) (k : A -> M B) : M B :=
  fun w =>
    match m w with
    | (Ok a, w') => k a w'
    | (Raise e, w') => (Raise e, w')
    end.

Notation "x <- m ;; k" := (bind m (fun x => k))
  (at level 100, m at next level, right associativity).

(** [try: m  except Exception: h]. *)
Definition try_except {A} (m : M A) (h : exn -> M A) : M A :=
  fun w =>
    match m w with
    | (Ok a, w') => (Ok a, w')
    | (Raise e, w') => h e w'
    end.

(** [for x in l: body(x)]; an exception leaves the loop. *)
Fixpoint for_each {A} (l : list A) (body : A -> M unit) : M unit :=
  match l with
  | [] => ret tt
  | x :: r => _ <- body x ;; for_each r body
  end.

Definition add_log (ops : list op) (w : World) : World :=
  {| files := files w; broken := broken w; db := db w; log := log w ++ ops |}.

Definition tell (o : op) : M unit := fun w => (Ok tt, add_log [o] w).

(** The storage backend (Django's [Storage] API over an in-memory file
    table).  [storage_url] belongs to the backend, and so does the free
    name that [get_available_name] settles on when the requested one is
    taken (Django appends random suffixes until the name is free). *)
Class Backend : Type := {
  storage_url : string -> string;
  alternative_name : gmap string (list Z) -> string -> string;
}.

Section Storage.
Context {BE : Backend}.

Definition storage_exists (path : string) : M bool :=
  _ <- tell (OpExists path) ;;
  fun w => (Ok (bool_decide (is_Some (files w !! path))), w).

Definition storage_open (path : string) : M (list Z) :=
  _ <- tell (OpOpen path) ;;
  fun w =>
    match files w !! path with
    | Some content => (Ok content, w)
    | None => (Raise FileNotFoundError, w)
    end.

(** [storage.delete(name)]: no error when the file is not there; the
    backend fails with [StorageError] on a path that is [broken]. *)
Definition storage_delete (path : string) : M unit :=
  _ <- tell (OpDelete path) ;;
  fun w =>
    if bool_decide (path ∈ broken w) then (Raise StorageError, w)
    else (Ok tt, set_files (delete path (files w)) w).

(** [storage.save(name, content)]: Django writes to [name] when it is
    free and to an alternative name otherwise ([get_available_name]); the
    name written to is returned.  Writing to a [broken] path fails with
    [StorageError]. *)
Definition get_available_name (path : string) : M string :=
  fun w =>
    match files w !! path with
    | Some _ => (Ok (alternative_name (files w) path), w)
    | None => (Ok path, w)
    end.

Definition storage_save (path : string) (content : list Z) : M string :=
  actual <- get_available_name path ;;
  _ <- tell (OpSave actual content) ;;
  fun w =>
    if bool_decide (actual ∈ broken w) then (Raise StorageError, w)
    else (Ok actual, set_files (<[actual := content]> (files w)) w).

Definition storage_url_of (path : string) : M string :=
  _ <- tell (OpUrl path) ;;
  ret (storage_url path).

End Storage.

Section Engine.
Context {FM : FloatModel} {IM : Imaging} {BE : Backend}.

(** An [ImageField] as declared on a model.  [formats] is the resolved
    value of the cached property (a dict, kept in insertion order);
    [label] and [label_lower] are [field.model._meta.label] and
    [field.model._meta.label_lower]. *)
Record ImageField : Type := {
  label : string;
  label_lower : string;
  field_name : string;
  formats : list (string * list Processor);
  ppoi_field : option string;
}.

(** [item in d] and [d[item]] on a dict kept as an association list. *)
Fixpoint dict_get {V} (d : list (string * V)) (key : string) : option V :=
  match d with
  | [] => None
  | (k, v) :: r => if String.eqb k key then Some v else dict_get r key
  end.

Definition dict_keys {V} (d : list (string * V)) : list string := map fst d.

(** An [ImageFieldFile]: the file name in storage (the empty string when
    the record has no image), the instance and field it belongs to, and
    the entries that [setattr] has put into the object's own [__dict__]. *)
Record ImageFieldFile : Type := {
  name : string;
  instance : Instance;
  field : ImageField;
  memo : gmap string string;
}.

(** Truth value of [self.field.ppoi_field] ([None] and [''] are false). *)
Definition ppoi_field_set (f : ImageField) : option string :=
  match ppoi_field f with
  | Some a => if String.eqb a "" then None else Some a
  | None => None
  end.

(** [[
def _ppoi(self):
    if self.field.ppoi_field:
        return [
            float(coord) for coord in
            getattr(self.instance, self.field.ppoi_field).split('x')
        ]
    return [0.5, 0.5]
]] *)
Definition _ppoi (self : ImageFieldFile) : result (list float) :=
  match ppoi_field_set (field self) with
  | Some attr =>
      match getattr (instance self) attr with
      | Some (PyStr s) => rmapM float_of_str (PyStr.split "x" s)
      | Some PyNone => Raise AttributeError   (* None has no split *)
      | None => Raise AttributeError          (* no such attribute *)
      end
  | None => Ok [float_half; float_half]
  end.

(** [str(l)] for a list of floats: ['[0.5, 0.5]']. *)
Definition str_float_list (l : list float) : string :=
  "[" +:+ PyStr.join ", " (map float_repr l) +:+ "]".

(** [os.path.splitext] (posixpath): the extension starts at the last dot
    of the last path component, unless that component has only leading
    dots before it. *)
Definition slice (i j : Z) (l : list ascii) : list ascii :=
  firstn (Z.to_nat (j - i)) (skipn (Z.to_nat i) l).

Definition splitext (p : string) : string * string :=
  let sepIndex := PyStr.rfind "/" p in
  let dotIndex := PyStr.rfind "." p in
  if (dotIndex >? sepIndex)
     && negb (forallb (Ascii.eqb ".") (slice (sepIndex + 1) dotIndex (PyStr.chars p)))
  then (PyStr.take (Z.to_nat dotIndex) p, PyStr.drop (Z.to_nat dotIndex) p)
  else (p, EmptyString).

(** The text that is hashed into the second component of the path. *)
Definition recipe_text (processors : list Processor) (ppoi : list float) : string :=
  PyStr.join "|" (map str_processor processors) +:+ "|" +:+ str_float_list ppoi.

(** [[
def _processed_name(self, processors):
    p1 = urlhash(self.name)
    p2 = urlhash(
        '|'.join(str(p) for p in processors) + '|' + str(self._ppoi()),
    )
    _, ext = os.path.splitext(self.name)
    return '__processed__/%s/%s_%s%s' % (p1[:2], p1[2:], p2, ext)
]] *)
Definition _processed_name (self : ImageFieldFile) (processors : list Processor)
  : result string :=
  let p1 := urlhash (name self) in
  rbind (_ppoi self) (fun ppoi =>
  let p2 := urlhash (recipe_text processors ppoi) in
  let '(_, ext) := splitext (name self) in
  Ok ("__processed__/" +:+ PyStr.take 2 p1 +:+ "/" +:+ PyStr.drop 2 p1
        +:+ "_" +:+ p2 +:+ ext)).

(** [[
def _processed_base(self):
    p1 = urlhash(self.name)
    return '__processed__/%s' % p1[:2], '%s_' % p1[2:]
]] *)
Definition _processed_base (self : ImageFieldFile) : string * string :=
  let p1 := urlhash (name self) in
  ("__processed__/" +:+ PyStr.take 2 p1, PyStr.drop 2 p1 +:+ "_").

(** [self.open('rb')]: [FieldFile.open] requires a file name and opens it
    through the storage. *)
Definition file_open (self : ImageFieldFile) : M (list Z) :=
  if String.eqb (name self) "" then raise ValueError
  else storage_open (name self).

(** [[
def process(self, item, force=False):
    processors = self.field.formats[item]
    target = self._processed_name(processors)
    if not force and self.storage.exists(target):
        return

    with self.open('rb') as orig:
        image = Image.open(orig)
        context = SimpleNamespace(
            ppoi=self._ppoi(),
            save_kwargs={},
        )
        format = image.format
        _, ext = os.path.splitext(self.name)

        handler = build_handler(processors)
        image, context = handler(image, context)

        with io.BytesIO() as buf:
            image.save(buf, format=format, **context.save_kwargs)

            self.storage.delete(target)
            self.storage.save(target, ContentFile(buf.getvalue()))

            print('Saved', target)
]]
    [generate] is the part after the early return; the line printed at
    the end is left out. *)
Definition generate (self : ImageFieldFile) (processors : list Processor)
    (target : string) : M unit :=
  orig <- file_open self ;;
  _ <- tell OpDecode ;;
  image <- lift (image_open orig) ;;
  ppoi <- lift (_ppoi self) ;;
  let context := (ppoi, no_kwargs) in
  let format := image_format image in
  handler <- lift (build_handler processors) ;;
  _ <- tell OpPipeline ;;
  r <- lift (handler image context) ;;
  let '(image, context) := r in
  _ <- tell OpEncode ;;
  buf <- lift (image_save image format (snd context)) ;;
  _ <- storage_delete target ;;
  _ <- storage_save target buf ;;
  ret tt.

Definition process (self : ImageFieldFile) (item : string) (force : bool)
  : M unit :=
  match dict_get (formats (field self)) item with
  | None => raise KeyError
  | Some processors =>
      target <- lift (_processed_name self processors) ;;
      cached <- (if force then ret false else storage_exists target) ;;
      if cached then ret tt
      else generate self processors target
  end.

(** [setattr(self, item, url)]. *)
Definition set_memo (self : ImageFieldFile) (item url : string) : ImageFieldFile :=
  {| name := name self; instance := instance self; field := field self;
     memo := <[item := url]> (memo self) |}.

(** [[
def __getattr__(self, item):
    if item in self.field.formats:
        url = self.storage.url(
            self._processed_name(self.field.formats[item]),
        )
        setattr(self, item, url)
        return url
    raise AttributeError
]] *)
Definition __getattr__ (self : ImageFieldFile) (item : string)
  : M (string * ImageFieldFile) :=
  match dict_get (formats (field self)) item with
  | Some processors =>
      target <- lift (_processed_name self processors) ;;
      url <- storage_url_of target ;;
      ret (url, set_memo self item url)
  | None => raise AttributeError
  end.

(** Python's attribute access [self.<item>] for a name that the class
    does not define: the entry of the object's [__dict__] if there is
    one, and [__getattr__] only when that lookup fails. *)
Definition get_attribute (self : ImageFieldFile) (item : string)
  : M (string * ImageFieldFile) :=
  match memo self !! item with
  | Some v => ret (v, self)
  | None => __getattr__ self item
  end.

(** [getattr(instance, field.name)] on a record whose field file has not
    memoized a URL: Django's file descriptor wraps the stored name into
    a field file.  The descriptor keeps that object on the instance, so
    a later access finds it with the URLs that [__getattr__] has stored
    in the meantime; [cached_fieldfile] below is the field file with
    such a memo.  [process] reads nothing of the memo, which is why the
    hook and the command are written with this definition.  A name that
    is [None] is read as the empty name. *)
Definition fieldfile (i : Instance) (f : ImageField) : ImageFieldFile :=
  {| name := match getattr i (field_name f) with
             | Some (PyStr s) => s
             | _ => EmptyString
             end;
     instance := i; field := f; memo := ∅ |}.

(** [[
def _generate_files(self, instance, **kwargs):
    f = getattr(instance, self.name)
    for item in f.field.formats:
        f.process(item)
]] *)
Definition _generate_files (self : ImageField) (i : Instance) : M unit :=
  let f := fieldfile i self in
  for_each (dict_keys (formats (field f))) (fun item => process f item false).

(** Name resolution inside a function body: its parameters, then the
    names bound at module level in [fields.py]. *)
Definition module_globals : list string :=
  ["hashlib"; "io"; "os"; "SimpleNamespace"; "settings"; "ContentFile";
   "models"; "signals"; "files"; "ClearableFileInput"; "cached_property";
   "urlsafe_base64_encode"; "Image"; "build_handler"; "PPOIWidget";
   "with_preview_and_ppoi"; "IMAGE_FIELDS"; "urlhash"; "ImageFieldFile";
   "ImageField"; "PPOIField"].

Definition resolve_name (params : list string) (x : string) : result unit :=
  if existsb (String.eqb x) (params ++ module_globals) then Ok tt
  else Raise NameError.

(** [[
@staticmethod
def _clear_generated_files(instance, **kwargs):
    f = getattr(instance, self.name)
    folder, startswith = f._processed_name()
    for file in f.storage.listdir(folder):
        if file.startswith(startswith):
            f.storage.delete(file)
]]
    The function is a static method: its parameters are [instance] and
    [kwargs], and [self] is looked up as a global.  Were [self] bound,
    the next statement calls [_processed_name] without its [processors]
    argument, which raises [TypeError]. *)
Definition _clear_generated_files (i : Instance) : M unit :=
  _ <- lift (resolve_name ["instance"; "kwargs"] "self") ;;
  raise TypeError.

(** *** The management command *)

(** The command object: its [_filter] attribute ([None], or a dict from
    lower-cased model label to the list of field names). *)
Record Command : Type := {
  _filter : option (gmap string (list string));
}.

Definition filter_add (field : string) (self : Command) : Command :=
  let parts := PyStr.split "." (PyStr.lower field) in
  {| _filter :=
       option_map (insert (PyStr.join "." (firstn 2 parts)) (skipn 2 parts))
                  (_filter self) |}.

(** [[
def _make_filter(self, fields):
    if not fields:
        self._filter = None

    self._filter = {}
    for field in fields:
        parts = field.lower().split('.')
        self._filter['.'.join(parts[:2])] = parts[2:]
]] *)
Definition _make_filter (self : Command) (fields : list string) : Command :=
  let self :=
    match fields with
    | [] => {| _filter := None |}
    | _ => self
    end in
  let self := {| _filter := Some ∅ |} in
  fold_left (fun self field => filter_add field self) fields self.

(** [[
def _skip_field(self, field):
    if self._filter is None:
        # Process all fields
        return False
    fields = self._filter.get(field.model._meta.label_lower)
    return fields is None or (fields and field.name not in fields)
]]
    The result is the truth value of the returned object (an empty list
    is false). *)
Definition _skip_field (self : Command) (field : ImageField) : bool :=
  match _filter self with
  | None => false
  | Some flt =>
      match flt !! label_lower field with
      | None => true
      | Some fields =>
          match fields with
          | [] => false
          | _ => negb (existsb (String.eqb (field_name field)) fields)
          end
      end
  end.

(** One record of the inner loop of [handle]:
[[
fieldfile = getattr(instance, field.name)
if fieldfile and fieldfile.name:
    for key in field.formats:
        try:
            fieldfile.process(key, force=options.get('force'))
        except Exception:
            pass
]] *)
Definition handle_record (field : ImageField) (force : bool) (i : Instance)
  : M unit :=
  let ff := fieldfile i field in
  if String.eqb (name ff) "" then ret tt
  else
    for_each (dict_keys (formats field))
      (fun key => try_except (process ff key force) (fun _ => ret tt)).

(** [field.model._default_manager.all()]. *)
Definition queryset (field : ImageField) : M (list Instance) :=
  fun w => (Ok (default [] (db w !! label field)), w).

(** [[
def handle(self, **options):
    self._make_filter(options['field'])

    for field in IMAGE_FIELDS:
        if self._skip_field(field):
            continue
        ...
        queryset = field.model._default_manager.all()
        count = queryset.count()
        for index, instance in enumerate(queryset):
            <handle_record>
            ...
]]
    The progress bar written to the console is left out. *)
Definition handle_field (self : Command) (force : bool) (field : ImageField)
  : M unit :=
  if _skip_field self field then ret tt
  else
    records <- queryset field ;;
    for_each records (handle_record field force).

Definition handle (self : Command) (IMAGE_FIELDS : list ImageField)
    (fields : list string) (force : bool) : M unit :=
  let self := _make_filter self fields in
  for_each IMAGE_FIELDS (handle_field self force).

(** The calls of [process] that a run of [handle] is due to make, in
    order: for every field that is not skipped, every record of its model
    that has an image, every format of the field. *)
Definition record_items (field : ImageField) (i : Instance)
  : list (ImageFieldFile * string) :=
  let ff := fieldfile i field in
  if String.eqb (name ff) "" then []
  else map (fun key => (ff, key)) (dict_keys (formats field)).

Definition field_items (self : Command) (w : World) (field : ImageField)
  : list (ImageFieldFile * string) :=
  if _skip_field self field then []
  else flat_map (record_items field) (default [] (db w !! label field)).

Definition work_items (self : Command) (IMAGE_FIELDS : list ImageField)
    (w : World) : list (ImageFieldFile * string) :=
  flat_map (field_items self w) IMAGE_FIELDS.

(** One call of [process] whose outcome, result or exception, is
    dropped: only its effect on the world remains. *)
Definition attempt (force : bool) (w : World) (it : ImageFieldFile * string)
  : World :=
  snd (process (fst it) (snd it) force w).

End Engine.

(** ** Further parts of [fields.py] *)

Section Fields.
Context {FM : FloatModel} {IM : Imaging} {BE : Backend}.

(** [[
@cached_property
def formats(self):
    setting = getattr(settings, 'IMAGEFIELD_FORMATS', {})
    return setting.get(
        ('%s.%s' % (self.model._meta.label_lower, self.name)).lower(),
        self._formats,
    )
]]
    [IMAGEFIELD_FORMATS] is [None] when the settings do not define it. *)
Definition resolve_formats
    (IMAGEFIELD_FORMATS : option (gmap string (list (string * list Processor))))
    (label_lower name : string) (_formats : list (string * list Processor))
  : list (string * list Processor) :=
  let setting := default ∅ IMAGEFIELD_FORMATS in
  default _formats (setting !! PyStr.lower (label_lower +:+ "." +:+ name)).

(** What a form hands to [save_form_data]: [None] (no change), a false
    value (the image was cleared) or an uploaded file. *)
Inductive form_data : Type :=
| DataNone
| DataFalse
| DataFile (name : string).

(** Truth value of the data (a file without a name is false). *)
Definition data_true (d : form_data) : bool :=
  match d with
  | DataFile n => negb (String.eqb n "")
  | _ => false
  end.

Definition setattr (i : Instance) (attr : string) (v : pyval) : Instance :=
  {| inst_attrs := <[attr := v]> (inst_attrs i) |}.

(** [[
def save_form_data(self, instance, data):
    super().save_form_data(instance, data)

    # Reset PPOI field if image field is cleared
    if data is not None and not data:
        if self.ppoi_field:
            setattr(instance, self.ppoi_field, '0.5x0.5')
]]
    Django's [FileField.save_form_data] is
    [if data is not None: setattr(instance, self.name, data or '')]. *)
Definition save_form_data (self : ImageField) (i : Instance) (data : form_data)
  : Instance :=
  let i :=
    match data with
    | DataNone => i
    | DataFile n =>
        setattr i (field_name self) (PyStr (if data_true data then n else ""))
    | DataFalse => setattr i (field_name self) (PyStr "")
    end in
  match data with
  | DataNone => i
  | _ =>
      if data_true data then i
      else
        match ppoi_field_set self with
        | Some attr => setattr i attr (PyStr "0.5x0.5")
        | None => i
        end
  end.

(** The derivative of [item] is in the files of [w]. *)
Definition generated (self : ImageFieldFile) (w : World) (item : string) : Prop :=
  exists processors target,
    dict_get (formats (field self)) item = Some processors
    /\ _processed_name self processors = Ok target
    /\ is_Some (files w !! target).

(** The field file that [getattr(instance, field.name)] returns once
    attribute accesses have left the URLs [m] in its [__dict__]: the
    object is cached on the instance, its [instance] is the record as it
    is now, and nothing ever removes an entry of [m]. *)
Definition cached_fieldfile (i : Instance) (f : ImageField)
    (m : gmap string string) : ImageFieldFile :=
  {| name := name (fieldfile i f); instance := i; field := f; memo := m |}.

End Fields.

(** ** A concrete runtime, used to evaluate the code on inputs *)

Module Demo.

(** Floats written as plain decimal literals [[+-]digits[.digits]], kept
    as the exact decimal [(-1)^neg * mant * 10^exp10] with [mant] free of
    trailing zeros.  On such literals of at most 15 significant digits
    this agrees with Python's [float()] and [repr()]; other spellings
    that Python accepts (exponents, [inf], [nan], blanks, underscores)
    are outside this instance and rejected by it. *)
Record dec : Type := Dec { neg : bool; mant : N; exp10 : Z }.

Definition digit (a : ascii) : option N :=
  let n := N_of_ascii a in
  if ((48 <=? n) && (n <=? 57))%N then Some (n - 48)%N else None.

(** Reads a run of digits: the value so far, the number of digits read
    and the rest. *)
Fixpoint digits (acc : N) (count : nat) (l : list ascii) : N * nat * list ascii :=
  match l with
  | a :: r =>
      match digit a with
      | Some d => digits (10 * acc + d)%N (S count) r
      | None => (acc, count, l)
      end
  | [] => (acc, count, l)
  end.

Fixpoint normalise (fuel : nat) (m : N) (e : Z) : N * Z :=
  match fuel with
  | O => (m, e)
  | S n =>
      if (m =? 0)%N then (0%N, 0)
      else if (m mod 10 =? 0)%N then normalise n (m / 10)%N (e + 1)
      else (m, e)
  end.

Definition parse (s : string) : result dec :=
  let l := PyStr.chars s in
  let '(sign, l) :=
    match l with
    | "-"%char :: r => (true, r)
    | "+"%char :: r => (false, r)
    | _ => (false, l)
    end in
  let '(ipart, icount, l) := digits 0 0 l in
  let '(m, fcount, total, l) :=
    match l with
    | "."%char :: r =>
        let '(m, c, r') := digits ipart icount r in
        (m, (c - icount)%nat, c, r')
    | _ => (ipart, 0%nat, icount, l)
    end in
  match l, total with
  | [], S _ =>
      let '(m', e') := normalise total m (- Z.of_nat fcount) in
      Ok (Dec sign m' e')
  | _, _ => Raise ValueError
  end.

Definition zeros (n : nat) : string := PyStr.of_chars (repeat "0"%char n).

(** [repr(x)]: the digits with the decimal point at [decpt]; exponent
    notation when [decpt <= -4] or [decpt > 16]. *)
Definition repr (x : dec) : string :=
  let ds := pretty (mant x) in
  let n := Z.of_nat (String.length ds) in
  let decpt := n + exp10 x in
  let body :=
    if (mant x =? 0)%N then "0.0"
    else if (decpt <=? -4) || (16 <? decpt) then
      let e := decpt - 1 in
      let es := pretty (Z.abs e) in
      PyStr.take 1 ds
        +:+ (if (1 <? n) then "." +:+ PyStr.drop 1 ds else "")
        +:+ "e" +:+ (if e <? 0 then "-" else "+")
        +:+ (if Z.abs e <? 10 then "0" else "") +:+ es
    else if decpt <=? 0 then "0." +:+ zeros (Z.to_nat (- decpt)) +:+ ds
    else if n <=? decpt then ds +:+ zeros (Z.to_nat (decpt - n)) +:+ ".0"
    else PyStr.take (Z.to_nat decpt) ds +:+ "." +:+ PyStr.drop (Z.to_nat decpt) ds in
  (if neg x then "-" else "") +:+ body.

#[export] Instance decimal_floats : FloatModel := {|
  float := dec;
  float_of_str := parse;
  float_repr := repr;
  float_half := Dec false 5 (-1);
|}.

(** Processors as they are written in a format list: a name, or a name
    with integer arguments, as in [['default', ('crop', (300, 300))]]. *)
Inductive proc : Type :=
| PName (n : string)
| PCall (n : string) (args : list Z).

Definition str_tuple (args : list Z) : string :=
  match args with
  | [] => "()"
  | [a] => "(" +:+ pretty a +:+ ",)"
  | _ => "(" +:+ PyStr.join ", " (map pretty args) +:+ ")"
  end.

Definition str_proc (p : proc) : string :=
  match p with
  | PName n => n
  | PCall n args => "('" +:+ n +:+ "', " +:+ str_tuple args +:+ ")"
  end.

(** A toy image library: an image is its format and its payload; a file
    decodes when it starts with the JPEG or the PNG magic byte. *)
Record image : Type := Img { img_format : string; pixels : list Z }.

Definition decode (content : list Z) : result image :=
  match content with
  | 0xFF :: r => Ok (Img "JPEG" r)
  | 0x89 :: r => Ok (Img "PNG" r)
  | _ => Raise DecodeError
  end.

Definition encode (i : image) (format : string) (kw : list (string * Z))
  : result (list Z) :=
  if String.eqb format "JPEG" then Ok (0xFF :: pixels i)
  else if String.eqb format "PNG" then Ok (0x89 :: pixels i)
  else Raise ProcessingError.

Definition step (p : proc) (st : image * (list dec * list (string * Z)))
  : result (image * (list dec * list (string * Z))) :=
  let '(i, (ppoi, kw)) := st in
  match p with
  | PName "default" => Ok (i, (ppoi, ("quality", 90) :: kw))
  | PCall "crop" [w; h] =>
      Ok (Img (img_format i) (firstn (Z.to_nat (w * h)) (pixels i)), (ppoi, kw))
  | _ => Raise ConfigurationError
  end.

Definition known (p : proc) : bool :=
  match p with
  | PName "default" | PCall "crop" [_; _] => true
  | _ => false
  end.

Definition build (ps : list proc)
  : result (image -> list dec * list (string * Z) ->
            result (image * (list dec * list (string * Z)))) :=
  if forallb known ps then
    Ok (fun i ctx =>
          fold_left (fun acc p => rbind acc (step p)) ps (Ok (i, ctx)))
  else Raise ConfigurationError.

#[export] Instance toy_imaging : Imaging := {|
  Processor := proc;
  str_processor := str_proc;
  Image := image;
  SaveKwargs := list (string * Z);
  no_kwargs := [];
  image_open := decode;
  image_format := img_format;
  build_handler := build;
  image_save := encode;
|}.

#[export] Instance media_backend : Backend := {|
  storage_url := fun p => "/media/" +:+ p;
  alternative_name := fun _ p => p +:+ "_alt";
|}.

End Demo.

(** ** Python's floats *)

Module Binary64.

(** A Python [float] is an IEEE 754 binary64 number.  A finite value is
    [(-1)^neg * m * 2^e] with [0 <= m < 2^53] and [-1074 <= e <= 971],
    where [2^52 <= m] unless [e = -1074]; with this normal form two
    finite floats other than zeros are equal in Python exactly when they
    are equal here. *)
Inductive binary64 : Type :=
| Finite (neg : bool) (m : Z) (e : Z)
| Infinity (neg : bool)
| NaN.

(** The quotient [n / d] rounded to the nearest integer, ties to even. *)
Definition round_half_even (n d : Z) : Z :=
  let q := n / d in
  let r := n mod d in
  if 2 * r <? d then q
  else if d <? 2 * r then q + 1
  else if Z.even q then q else q + 1.

(** The fraction [n / (d * 2^e)]. *)
Definition scale2 (n d e : Z) : Z * Z :=
  if 0 <=? e then (n, d * 2 ^ e) else (n * 2 ^ (- e), d).

(** The fraction [n / (d * 10^q)]. *)
Definition scale10 (n d q : Z) : Z * Z :=
  if 0 <=? q then (n, d * 10 ^ q) else (n * 10 ^ (- q), d).

(** The float nearest to the positive rational [n / d] (round to nearest,
    ties to even; a value of [2^1024] or more after rounding becomes an
    infinity, a value below the subnormals becomes zero). *)
Definition of_ratio (neg : bool) (n d : Z) : binary64 :=
  let e0 := Z.log2 n - Z.log2 d - 52 in
  let '(n0, d0) := scale2 n d e0 in
  let e1 := if n0 / d0 <? 2 ^ 52 then e0 - 1 else e0 in
  let e := Z.max e1 (-1074) in
  let '(n1, d1) := scale2 n d e in
  let m := round_half_even n1 d1 in
  let '(m, e) := if m =? 2 ^ 53 then (2 ^ 52, e + 1) else (m, e) in
  if 971 <? e then Infinity neg else Finite neg m e.

(** The value [(-1)^neg * m * 10^x] of a decimal literal. *)
Definition of_decimal (neg : bool) (m x : Z) (ndigits : Z) : binary64 :=
  if m =? 0 then Finite neg 0 (-1074)
  else if 400 <? x then Infinity neg
  else if x + ndigits <? -400 then Finite neg 0 (-1074)
  else let '(n, d) := scale10 m 1 (- x) in of_ratio neg n d.

(** *** [float(s)] *)

Definition digit (a : ascii) : option Z :=
  let n := Z.of_N (N_of_ascii a) in
  if (48 <=? n) && (n <=? 57) then Some (n - 48) else None.

(** Reads [digit (["_"] digit)*] as far as it goes: the value so far, the
    number of digits read and the rest. *)
Fixpoint digitpart (acc : Z) (count : nat) (l : list ascii) : Z * nat * list ascii :=
  match l with
  | a :: r =>
      match digit a with
      | Some d => digitpart (10 * acc + d) (S count) r
      | None =>
          match count, r with
          | S _, b :: r' =>
              if Ascii.eqb a "_" then
                match digit b with
                | Some d => digitpart (10 * acc + d) (S count) r'
                | None => (acc, count, l)
                end
              else (acc, count, l)
          | _, _ => (acc, count, l)
          end
      end
  | [] => (acc, count, l)
  end.

(** The blanks that [float] strips from both ends of its argument. *)
Definition is_space (a : ascii) : bool :=
  let n := Z.of_N (N_of_ascii a) in
  (n =? 32) || ((9 <=? n) && (n <=? 13)).

Fixpoint lstrip (l : list ascii) : list ascii :=
  match l with
  | a :: r => if is_space a then lstrip r else l
  | [] => []
  end.

Definition strip (l : list ascii) : list ascii := rev (lstrip (rev (lstrip l))).

Definition read_sign (l : list ascii) : bool * list ascii :=
  match l with
  | "-"%char :: r => (true, r)
  | "+"%char :: r => (false, r)
  | _ => (false, l)
  end.

(** The exponent part, if there is one: [("e" | "E") [sign] digitpart]. *)
Definition read_exponent (l : list ascii) : option (Z * list ascii) :=
  match l with
  | a :: r =>
      if Ascii.eqb a "e" || Ascii.eqb a "E" then
        let '(eneg, r) := read_sign r in
        let '(x, count, r) := digitpart 0 0 r in
        match count with
        | O => None
        | S _ => Some (if eneg : bool then - x else x, r)
        end
      else Some (0, l)
  | [] => Some (0, l)
  end.

(** [float(s)] for a string: blanks around the literal are dropped; the
    literal is [[sign] (inf | infinity | nan)] in any case of the
    letters, or [[sign] number [exponent]] where [number] has digits
    before or after an optional point and single underscores may stand
    between digits (as Python 3.6 and later read them).  The result is
    correctly rounded.  Python also
    accepts the digits and blanks of other scripts; these are outside
    ASCII and are rejected here. *)
Definition parse (s : string) : result binary64 :=
  let '(neg, l) := read_sign (strip (PyStr.chars s)) in
  let word := PyStr.lower (PyStr.of_chars l) in
  if String.eqb word "inf" || String.eqb word "infinity" then Ok (Infinity neg)
  else if String.eqb word "nan" then Ok NaN
  else
    let '(ipart, icount, l) := digitpart 0 0 l in
    let '(m, fcount, l) :=
      match l with
      | "."%char :: r => digitpart ipart 0 r
      | _ => (ipart, 0%nat, l)
      end in
    match (icount + fcount)%nat with
    | O => Raise ValueError
    | S _ =>
        match read_exponent l with
        | Some (x, []) =>
            Ok (of_decimal neg m (x - Z.of_nat fcount) (Z.of_nat (icount + fcount)))
        | _ => Raise ValueError
        end
    end.

(** *** [repr(x)] *)

(** [10^p <= n / d]. *)
Definition le_pow10 (p n d : Z) : bool :=
  if 0 <=? p then 10 ^ p * d <=? n else d <=? n * 10 ^ (- p).

(** The largest [p] with [10^p <= n / d], searched upwards from a lower
    estimate. *)
Fixpoint find_exp10 (fuel : nat) (p n d : Z) : Z :=
  match fuel with
  | O => p
  | S k => if le_pow10 (p + 1) n d then find_exp10 k (p + 1) n d else p
  end.

Definition exp10_of (n d : Z) : Z :=
  find_exp10 8 ((Z.log2 n - Z.log2 d - 1) * 30103 / 100000 - 2) n d.

(** Whether the decimal [c * 10^q] reads back as the float [m * 2^e]. *)
Definition reads_back (m e c q : Z) : bool :=
  let '(n, d) := scale10 c 1 (- q) in
  match of_ratio false n d with
  | Finite _ m' e' => (m' =? m) && (e' =? e)
  | _ => false
  end.

(** The decimals of [k] significant digits next to [m * 2^e = n / d]:
    the one that reads back as the float, the nearer one if both do. *)
Definition candidate (m e n d p : Z) (k : nat) : option (Z * Z) :=
  let q := p - Z.of_nat k + 1 in
  let '(n', d') := scale10 n d q in
  let lo := n' / d' in
  let r := n' mod d' in
  let hi := if r =? 0 then lo else lo + 1 in
  let lo_first := if 2 * r <? d' then true
                  else if d' <? 2 * r then false
                  else Z.even lo in
  let '(c1, c2) := if lo_first : bool then (lo, hi) else (hi, lo) in
  if reads_back m e c1 q then Some (c1, q)
  else if reads_back m e c2 q then Some (c2, q)
  else None.

(** The shortest decimal that reads back as the float. *)
Fixpoint shortest (m e n d p : Z) (fuel : nat) (k : nat) : Z * Z :=
  match candidate m e n d p k, fuel with
  | Some r, _ => r
  | None, S fuel' => shortest m e n d p fuel' (S k)
  | None, O => let '(n', d') := scale10 n d (p - 16) in (round_half_even n' d', p - 16)
  end.

(** [repr(x)]: ['nan'], ['inf'], or the shortest decimal that reads back
    as [x], laid out as [Demo.repr] does. *)
Definition repr (x : binary64) : string :=
  match x with
  | NaN => "nan"
  | Infinity neg => if neg then "-inf" else "inf"
  | Finite neg m e =>
      if m =? 0 then (if neg then "-0.0" else "0.0")
      else
        let '(n, d) := scale2 m 1 (- e) in
        let '(c, q) := shortest m e n d (exp10_of n d) 16 1 in
        let '(c', q') := Demo.normalise 400 (Z.to_N c) q in
        Demo.repr (Demo.Dec neg c' q')
  end.

#[export] Instance python_floats : FloatModel := {|
  float := binary64;
  float_of_str := parse;
  float_repr := repr;
  float_half := Finite false (2 ^ 52) (-53);
|}.

(** The toy image library of [Demo] with these floats in the context. *)
Definition step (p : Demo.proc)
    (st : Demo.image * (list binary64 * list (string * Z)))
  : result (Demo.image * (list binary64 * list (string * Z))) :=
  let '(i, (ppoi, kw)) := st in
  match p with
  | Demo.PName "default" => Ok (i, (ppoi, ("quality", 90) :: kw))
  | Demo.PCall "crop" [w; h] =>
      Ok (Demo.Img (Demo.img_format i) (firstn (Z.to_nat (w * h)) (Demo.pixels i)),
          (ppoi, kw))
  | _ => Raise ConfigurationError
  end.

Definition build (ps : list Demo.proc)
  : result (Demo.image -> list binary64 * list (string * Z) ->
            result (Demo.image * (list binary64 * list (string * Z)))) :=
  if forallb Demo.known ps then
    Ok (fun i ctx =>
          fold_left (fun acc p => rbind acc (step p)) ps (Ok (i, ctx)))
  else Raise ConfigurationError.

#[export] Instance toy_imaging64 : Imaging := {|
  Processor := Demo.proc;
  str_processor := Demo.str_proc;
  Image := Demo.image;
  SaveKwargs := list (string * Z);
  no_kwargs := [];
  image_open := Demo.decode;
  image_format := Demo.img_format;
  build_handler := build;
  image_save := Demo.encode;
|}.

End Binary64.

(** ** Sample data: a photo model with an image field and a PPOI field *)

Module Samples.
Import Demo.

Definition thumb : list proc := [PName "default"; PCall "crop" [100; 100]].
Definition desktop : list proc := [PName "default"; PCall "crop" [300; 300]].

Definition photo_field : ImageField :=
  {| label := "app.Photo"; label_lower := "app.photo"; field_name := "image";
     formats := [("thumb", thumb); ("desktop", desktop)];
     ppoi_field := Some "ppoi" |}.

(** The same field declared without a PPOI field. *)
Definition plain_field : ImageField :=
  {| label := "app.Photo"; label_lower := "app.photo"; field_name := "image";
     formats := [("thumb", thumb); ("desktop", desktop)];
     ppoi_field := None |}.

Definition photo (image ppoi : string) : Instance :=
  {| inst_attrs := <["image" := PyStr image]> (<["ppoi" := PyStr ppoi]> ∅) |}.

Definition file_a : ImageFieldFile := fieldfile (photo "photos/a.jpg" "0.5x0.5") photo_field.

(** The same image with the PPOI written differently, as seen through a
    field file that already carries a memoized attribute. *)
Definition file_a' : ImageFieldFile :=
  {| name := "photos/a.jpg"; instance := photo "photos/a.jpg" "0.50x0.500";
     field := photo_field; memo := {["thumb" := "/media/stale"]} |}.

Definition file_empty_ppoi : ImageFieldFile := fieldfile (photo "photos/a.jpg" "") photo_field.
Definition file_bad_ppoi : ImageFieldFile := fieldfile (photo "photos/a.jpg" "centre") photo_field.
Definition file_no_ppoi_attr : ImageFieldFile :=
  fieldfile {| inst_attrs := {["image" := PyStr "photos/a.jpg"]} |} photo_field.

(** A storage holding the source image of [file_a], and one that also
    holds a derivative generated earlier. *)
Definition jpeg : list Z := [0xFF; 1; 2; 3; 4].

Definition thumb_path : string :=
  "__processed__/RB/0FE7Lu5G6ptcSBUA_LYkQUQ1g_JldRySV912xz1PLdp4lX4XcXpf0.jpg".

Definition fresh_world : World :=
  {| files := {["photos/a.jpg" := jpeg]}; broken := ∅;
     db := {["app.Photo" := [photo "photos/a.jpg" "0.5x0.5"]]}; log := [] |}.

Definition stale_world : World :=
  {| files := <[thumb_path := [0xFF; 9; 9]]> {["photos/a.jpg" := jpeg]};
     broken := ∅;
     db := {["app.Photo" := [photo "photos/a.jpg" "0.5x0.5"]]}; log := [] |}.

(** Four records of the photo model: the second has a source that does
    not decode, the third has no image. *)
Definition batch_world : World :=
  {| files := <["photos/c.png" := [0x89; 7; 7]]>
                (<["photos/bad.jpg" := [0; 0]]> {["photos/a.jpg" := jpeg]});
     broken := ∅;
     db := {["app.Photo" := [photo "photos/a.jpg" "0.5x0.5";
                             photo "photos/bad.jpg" "0.5x0.5";
                             photo "" "0.5x0.5";
                             photo "photos/c.png" "0.2x0.8"]]};
     log := [] |}.

Definition is_exists (o : op) : bool :=
  match o with OpExists _ => true | _ => false end.

Definition is_save (o : op) : bool :=
  match o with OpSave _ _ => true | _ => false end.

End Samples.

(** The photo model again, with Python's floats for the PPOI. *)
Module Samples64.
Import Binary64.

Definition photo_field64 : ImageField :=
  {| label := "app.Photo"; label_lower := "app.photo"; field_name := "image";
     formats := [("thumb", Samples.thumb); ("desktop", Samples.desktop)];
     ppoi_field := Some "ppoi" |}.

(** The field file of a record with the image [photos/a.jpg] and the
    given PPOI. *)
Definition file_with (ppoi : string) : ImageFieldFile :=
  fieldfile (Samples.photo "photos/a.jpg" ppoi) photo_field64.

End Samples64.

(** ** Notions used in the statements below *)

(** A computation that leaves the database as it found it. *)
Definition keeps_db {A} (m : M A) : Prop := forall w, db (snd (m w)) = db w.

(** A computation that leaves the file at [p] as it found it. *)
Definition keeps_file {A} (p : string) (m : M A) : Prop :=
  forall w, files (snd (m w)) !! p = files w !! p.

(** The operations that change the storage. *)
Definition is_write (o : op) : bool :=
  match o with
  | OpDelete _ | OpSave _ _ => true
  | _ => false
  end.

Definition is_exists_check (o : op) : bool :=
  match o with OpExists _ => true | _ => false end.

(** ASCII upper-case letters. *)
Definition is_upper (a : ascii) : bool :=
  let n := N_of_ascii a in ((65 <=? n) && (n <=? 90))%N.

Definition has_upper (s : string) : bool := existsb is_upper (PyStr.chars s).

(** The dict key and the list of field names that [_make_filter] derives
    from one filter argument. *)
Definition filter_key (field : string) : string :=
  PyStr.join "." (firstn 2 (PyStr.split "." (PyStr.lower field))).

Definition filter_names (field : string) : list string :=
  skipn 2 (PyStr.split "." (PyStr.lower field)).

(** The position of a character in the alphabet. *)
Fixpoint index_in (c : ascii) (l : list ascii) : Z :=
  match l with
  | [] => 0
  | a :: r => if Ascii.eqb a c then 0 else 1 + index_in c r
  end.

Definition is_byte (x : Z) : Prop := 0 <= x < 256.

(** The four indices of a group of three bytes. *)
Definition sextet1 (a : Z) : Z := Z.shiftr a 2.
Definition sextet2 (a b : Z) : Z := Z.lor (Z.shiftl (Z.land a 3) 4) (Z.shiftr b 4).
Definition sextet3 (b c : Z) : Z := Z.lor (Z.shiftl (Z.land b 15) 2) (Z.shiftr c 6).
Definition sextet4 (c : Z) : Z := Z.land c 63.

(** * Facts about the runtime model *)

Section StringFacts.

Lemma chars_of_chars (l : list ascii) : PyStr.chars (PyStr.of_chars l) = l.
Proof. apply list_ascii_of_string_of_list_ascii. Qed.

Lemma of_chars_chars (s : string) : PyStr.of_chars (PyStr.chars s) = s.
Proof. apply string_of_list_ascii_of_string. Qed.

Lemma chars_inj (s t : string) : PyStr.chars s = PyStr.chars t -> s = t.
Proof.
  intros E. rewrite <- (of_chars_chars s), <- (of_chars_chars t). now rewrite E.
Qed.

Lemma chars_app (s t : string) :
  PyStr.chars (s +:+ t) = PyStr.chars s ++ PyStr.chars t.
Proof.
  induction s as [|a s IH]; simpl; [reflexivity|].
  unfold PyStr.chars in *. simpl. now rewrite IH.
Qed.

Lemma length_chars (s : string) : length (PyStr.chars s) = String.length s.
Proof. induction s as [|a s IH]; simpl; [reflexivity|]. now rewrite <- IH. Qed.

Lemma length_of_chars (l : list ascii) : String.length (PyStr.of_chars l) = length l.
Proof. now rewrite <- length_chars, chars_of_chars. Qed.

Lemma take_drop (n : nat) (s : string) : PyStr.take n s +:+ PyStr.drop n s = s.
Proof.
  apply chars_inj. rewrite chars_app. unfold PyStr.take, PyStr.drop.
  rewrite !chars_of_chars. apply firstn_skipn.
Qed.

Lemma length_take (n : nat) (s : string) :
  (n <= String.length s)%nat -> String.length (PyStr.take n s) = n.
Proof.
  intros Hn. unfold PyStr.take. rewrite length_of_chars, length_firstn, length_chars.
  lia.
Qed.

Lemma length_drop (n : nat) (s : string) :
  String.length (PyStr.drop n s) = (String.length s - n)%nat.
Proof.
  unfold PyStr.drop. now rewrite length_of_chars, length_skipn, length_chars.
Qed.

(** Two concatenations whose first parts have the same length agree
    part by part. *)
Lemma string_app_inj_length (a b c d : string) :
  String.length a = String.length c -> a +:+ b = c +:+ d -> a = c /\ b = d.
Proof.
  intros Hlen E. apply (f_equal PyStr.chars) in E. rewrite !chars_app in E.
  apply app_inj_1 in E as [E1 E2]; [|now rewrite !length_chars].
  split; now apply chars_inj.
Qed.

End StringFacts.

Section HashFacts.

Lemma be_bytes_length (n : nat) (x : Z) : length (SHA1.be_bytes n x) = n.
Proof. unfold SHA1.be_bytes. now rewrite length_map, length_seq. Qed.

Lemma digest_length (msg : list Z) : length (SHA1.digest msg) = 20%nat.
Proof.
  unfold SHA1.digest. destruct (SHA1.hash msg) as [[[[h0 h1] h2] h3] h4].
  now rewrite !length_app, !be_bytes_length.
Qed.

(** No character of the alphabet is stripped by [rstrip(b'\n=')]. *)
Lemma char_not_stripped (n : Z) :
  PyStr.in_chars ["010"; "="]%char (Base64.char n) = false.
Proof.
  unfold Base64.char.
  destruct (nth_in_or_default (Z.to_nat n) Base64.alphabet "A"%char) as [Hin | ->];
    [|reflexivity].
  revert Hin. generalize (nth (Z.to_nat n) Base64.alphabet "A"%char). intros a Hin.
  assert (Hall : forallb (fun c => negb (PyStr.in_chars ["010"; "="]%char c))
                         Base64.alphabet = true) by (vm_compute; reflexivity).
  rewrite forallb_forall in Hall. apply Hall in Hin.
  now apply negb_true_iff in Hin.
Qed.

Lemma encode_20_length (l : list Z) :
  length l = 20%nat -> length (Base64.urlsafe_base64_encode l) = 27%nat.
Proof.
  intros Hl.
  do 20 (destruct l as [|? l]; [discriminate Hl|]).
  destruct l; [|discriminate Hl].
  unfold Base64.urlsafe_base64_encode, PyStr.rstrip_chars.
  cbn [Base64.encode rev app PyStr.lstrip_chars].
  change (PyStr.in_chars ["010"%char; "="%char] "="%char) with true. cbv iota.
  rewrite char_not_stripped. rewrite length_rev. reflexivity.
Qed.

Lemma urlhash_length (s : string) : String.length (urlhash s) = 27%nat.
Proof.
  unfold urlhash. rewrite length_of_chars. apply encode_20_length, digest_length.
Qed.

End HashFacts.

Section SplitextFacts.

Lemma rfind_from_split (c : ascii) (l : list ascii) (i best : Z) :
  (PyStr.rfind_from c i best l = best /\ ~ In c l) \/
  (exists pre rest, l = pre ++ c :: rest /\ ~ In c rest /\
                    PyStr.rfind_from c i best l = i + Z.of_nat (length pre)).
Proof.
  revert i best. induction l as [|a r IH]; intros i best; simpl.
  - left. split; [reflexivity | intros []].
  - destruct (IH (i + 1) (if Ascii.eqb a c then i else best))
      as [[E Hnot] | (pre & rest & -> & Hrest & E)].
    + destruct (Ascii.eqb_spec a c) as [-> | Hne].
      * right. exists [], r. simpl. repeat split; [assumption | lia].
      * left. split; [assumption | intros [? | ?]; congruence].
    + right. exists (a :: pre), rest. simpl. repeat split; [assumption | lia].
Qed.

Lemma rfind_split (c : ascii) (s : string) :
  (PyStr.rfind c s = -1 /\ ~ In c (PyStr.chars s)) \/
  (exists pre rest, PyStr.chars s = pre ++ c :: rest /\ ~ In c rest /\
                    PyStr.rfind c s = Z.of_nat (length pre)).
Proof.
  unfold PyStr.rfind.
  destruct (rfind_from_split c (PyStr.chars s) 0 (-1)) as [? | (pre & rest & ? & ? & ?)];
    [left; assumption | right; exists pre, rest; repeat split; try assumption; lia].
Qed.

(** A name without a dot has no extension. *)
Lemma splitext_no_dot (p : string) :
  ~ In "."%char (PyStr.chars p) -> splitext p = (p, EmptyString).
Proof.
  intros Hnot. unfold splitext.
  destruct (rfind_split "." p) as [[-> _] | (pre & rest & E & _ & _)].
  - destruct (rfind_split "/" p) as [[-> _] | (pre & rest & _ & _ & ->)].
    + reflexivity.
    + replace (-1 >? Z.of_nat (length pre)) with false
        by (symmetry; rewrite Z.gtb_ltb; apply Z.ltb_ge; lia).
      reflexivity.
  - exfalso. apply Hnot. rewrite E. apply in_elt.
Qed.

(** The two parts of [splitext] make up the name again. *)
Lemma splitext_app (p : string) :
  fst (splitext p) +:+ snd (splitext p) = p.
Proof.
  unfold splitext.
  destruct (_ && _); simpl; [apply take_drop|].
  apply chars_inj. rewrite chars_app. simpl. apply app_nil_r.
Qed.

(** The extension is empty, or a dot followed by characters among which
    there is neither a dot nor a slash. *)
Lemma splitext_ext (p : string) :
  snd (splitext p) = EmptyString \/
  exists rest, PyStr.chars (snd (splitext p)) = "."%char :: rest /\
               ~ In "."%char rest /\ ~ In "/"%char rest.
Proof.
  unfold splitext.
  destruct (rfind_split "." p) as [[-> _] | (pre & rest & E & Hdot & ->)].
  - destruct (rfind_split "/" p) as [[-> _] | (pre & rest & _ & _ & ->)].
    + left. reflexivity.
    + replace (-1 >? Z.of_nat (length pre)) with false
        by (symmetry; rewrite Z.gtb_ltb; apply Z.ltb_ge; lia).
      left. reflexivity.
  - destruct (Z.of_nat (length pre) >? PyStr.rfind "/" p) eqn:Hgt; simpl;
      [|left; reflexivity].
    destruct (negb _); simpl; [|left; reflexivity].
    right. exists rest. unfold PyStr.drop. rewrite chars_of_chars, Nat2Z.id, E.
    rewrite skipn_app, skipn_all, Nat.sub_diag. simpl.
    repeat split; [assumption|].
    destruct (rfind_split "/" p) as [[_ Hno] | (pre' & rest' & E' & Hsl & Es)].
    + intros Hin. apply Hno. rewrite E. apply in_or_app. right. now right.
    + rewrite Es in Hgt. assert (Hlt : (length pre' < length pre)%nat) by lia.
      intros Hin. apply Hsl.
      assert (Hr : rest = skipn (S (length pre)) (PyStr.chars p)).
      { rewrite E.
        replace (pre ++ "."%char :: rest) with ((pre ++ ["."%char]) ++ rest)
          by (now rewrite <- app_assoc).
        rewrite skipn_app, skipn_all2 by (rewrite length_app; simpl; lia).
        rewrite length_app. simpl.
        replace (S (length pre) - (length pre + 1))%nat with 0%nat by lia.
        reflexivity. }
      assert (Hr' : rest' = skipn (S (length pre')) (PyStr.chars p)).
      { rewrite E'.
        replace (pre' ++ "/"%char :: rest') with ((pre' ++ ["/"%char]) ++ rest')
          by (now rewrite <- app_assoc).
        rewrite skipn_app, skipn_all2 by (rewrite length_app; simpl; lia).
        rewrite length_app. simpl.
        replace (S (length pre') - (length pre' + 1))%nat with 0%nat by lia.
        reflexivity. }
      rewrite Hr'.
      replace (S (length pre)) with ((length pre - length pre') + S (length pre'))%nat
        in Hr by lia.
      rewrite <- skipn_skipn in Hr. rewrite Hr in Hin.
      rewrite <- (firstn_skipn (length pre - length pre') (skipn _ (PyStr.chars p))).
      apply in_or_app. now right.
Qed.

End SplitextFacts.

(** * The path resolver *)

Section Resolver.
Context {FM : FloatModel} {IM : Imaging}.

(** C1.  The resolved derivative path is
    ['__processed__/<h1[:2]>/<h1[2:]>_<h2><ext>']: [h1] is the unpadded
    base64url text of the SHA-1 digest of the UTF-8 source name (27
    characters, of which the first two name the shard directory), [h2]
    the same hash of the processors' [str] joined by ['|'], a ['|'] and
    the [str] of the PPOI list, and [ext] the extension that
    [os.path.splitext] cuts off the source name, unchanged. *)
Theorem processed_name_form
    (self : ImageFieldFile) (processors : list Processor) (ppoi : list float) :
  _ppoi self = Ok ppoi ->
  let b64sha1 := fun text : string =>
    PyStr.of_chars
      (Base64.urlsafe_base64_encode (SHA1.digest (PyStr.encode_utf8 text))) in
  let h1 := b64sha1 (name self) in
  let h2 := b64sha1 (PyStr.join "|" (map str_processor processors)
                       +:+ "|" +:+ str_float_list ppoi) in
  let root := fst (splitext (name self)) in
  let ext := snd (splitext (name self)) in
  _processed_name self processors =
    Ok ("__processed__/" +:+ PyStr.take 2 h1 +:+ "/" +:+ PyStr.drop 2 h1
          +:+ "_" +:+ h2 +:+ ext)
  /\ PyStr.take 2 h1 +:+ PyStr.drop 2 h1 = h1
  /\ String.length (PyStr.take 2 h1) = 2%nat
  /\ String.length (PyStr.drop 2 h1) = 25%nat
  /\ String.length h2 = 27%nat
  /\ root +:+ ext = name self
  /\ (ext = EmptyString \/
      exists rest, PyStr.chars ext = "."%char :: rest /\
                   ~ In "."%char rest /\ ~ In "/"%char rest).
Proof.
  intros Hp b64sha1 h1 h2 root ext.
  assert (L1 : String.length h1 = 27%nat) by apply urlhash_length.
  repeat split.
  - unfold _processed_name. rewrite Hp. simpl.
    fold (urlhash (name self)). subst ext.
    destruct (splitext (name self)) as [r e]. reflexivity.
  - apply take_drop.
  - apply length_take. lia.
  - rewrite length_drop. lia.
  - apply urlhash_length.
  - apply splitext_app.
  - apply splitext_ext.
Qed.

(** C7.  The resolver reads nothing but the source name, the processors
    and the PPOI: two field files that agree on the name and on the PPOI
    resolve every processor list to the identical path, whatever else
    differs between them (instance, field declaration, memoized
    attributes); it takes no storage and no other state. *)
Theorem processed_name_deterministic
    (f1 f2 : ImageFieldFile) (processors : list Processor) :
  name f1 = name f2 ->
  _ppoi f1 = _ppoi f2 ->
  _processed_name f1 processors = _processed_name f2 processors.
Proof.
  intros Hn Hp. unfold _processed_name. now rewrite Hn, Hp.
Qed.

Lemma rmapM_ok {A B} (f : A -> result B) (l : list A) (ys : list B) :
  rmapM f l = Ok ys <-> Forall2 (fun x y => f x = Ok y) l ys.
Proof.
  revert ys. induction l as [|x l IH]; intros ys; simpl.
  - split.
    + intros [= <-]. constructor.
    + intros H. inversion H. reflexivity.
  - split.
    + destruct (f x) as [y|e] eqn:Ef; simpl; [|discriminate].
      destruct (rmapM f l) as [zs|e] eqn:El; simpl; [|discriminate].
      intros [= <-]. constructor; [assumption | now apply IH].
    + intros H. inversion H as [|? y ? zs Hy Hzs]; subst. rewrite Hy. simpl.
      apply IH in Hzs. now rewrite Hzs.
Qed.

Lemma rmapM_raise {A B} (f : A -> result B) (l : list A) (e : exn) :
  rmapM f l = Raise e <->
  exists pre x post, l = pre ++ x :: post /\ f x = Raise e /\
                     Forall (fun z => exists y, f z = Ok y) pre.
Proof.
  induction l as [|x l IH]; simpl.
  - split; [discriminate|]. intros (pre & y & post & E & _). now destruct pre.
  - split.
    + destruct (f x) as [y|e'] eqn:Ef; simpl.
      * destruct (rmapM f l) as [zs|e'] eqn:El; simpl; [discriminate|].
        intros [= ->]. destruct (proj1 IH eq_refl) as (pre & z & post & -> & Hz & Hpre).
        exists (x :: pre), z, post. repeat split; [assumption|].
        constructor; [now exists y | assumption].
      * intros [= ->]. exists [], x, l. repeat split; [assumption | constructor].
    + intros (pre & z & post & E & Hz & Hpre). destruct pre as [|a pre]; simpl in E.
      * injection E as -> ->. now rewrite Hz.
      * injection E as -> ->. inversion Hpre as [|? ? [y Hy] Hrest]; subst.
        rewrite Hy. simpl.
        assert (El : rmapM f (pre ++ z :: post) = Raise e)
          by (apply IH; now exists pre, z, post).
        now rewrite El.
Qed.

(** C4, as amended.  [_ppoi] falls back to the default [[0.5, 0.5]] only
    when the field declares no PPOI field.  With a PPOI field it reads the
    attribute, splits it at ['x'] and converts every piece with
    [float()]: the result is the list of the converted pieces (however
    many), and the first piece that is no float literal makes the call
    raise what [float()] raises; a missing attribute or [None] raises
    [AttributeError].  For the empty string the only piece is the empty
    string itself. *)
Theorem ppoi_default_or_parse (self : ImageFieldFile) :
  match ppoi_field_set (field self) with
  | None => _ppoi self = Ok [float_half; float_half]
  | Some attr =>
      match getattr (instance self) attr with
      | Some (PyStr s) =>
          (forall l, _ppoi self = Ok l <->
                     Forall2 (fun piece x => float_of_str piece = Ok x)
                             (PyStr.split "x" s) l)
          /\ (forall e, _ppoi self = Raise e <->
                        exists pre piece post,
                          PyStr.split "x" s = pre ++ piece :: post /\
                          float_of_str piece = Raise e /\
                          Forall (fun z => exists y, float_of_str z = Ok y) pre)
          /\ (s = EmptyString ->
              _ppoi self = rbind (float_of_str EmptyString) (fun x => Ok [x]))
      | _ => _ppoi self = Raise AttributeError
      end
  end.
Proof.
  unfold _ppoi. destruct (ppoi_field_set (field self)) as [attr|]; [|reflexivity].
  destruct (getattr (instance self) attr) as [[|s]|]; try reflexivity.
  split; [|split].
  - intros l. apply rmapM_ok.
  - intros e. apply rmapM_raise.
  - intros ->. simpl. destruct (float_of_str EmptyString); reflexivity.
Qed.

End Resolver.

Section ResolverExamples.
Import Demo Samples.

Lemma processed_name_form_witness :
  _processed_name file_a thumb =
    Ok "__processed__/RB/0FE7Lu5G6ptcSBUA_LYkQUQ1g_JldRySV912xz1PLdp4lX4XcXpf0.jpg"
  /\ snd (splitext (name file_a)) = ".jpg".
Proof.
  assert (Hp : _ppoi file_a = Ok [float_half; float_half])
    by (vm_compute; reflexivity).
  destruct (processed_name_form file_a thumb _ Hp) as [E _].
  split; [rewrite E|]; vm_compute; reflexivity.
Defined.

Lemma processed_name_deterministic_witness :
  instance file_a <> instance file_a' /\ memo file_a <> memo file_a' /\
  _processed_name file_a thumb = _processed_name file_a' thumb.
Proof.
  split; [|split].
  - intros E. apply (f_equal (fun i => inst_attrs i !! "ppoi")) in E.
    vm_compute in E. discriminate E.
  - intros E. apply (f_equal (fun m : gmap string string => m !! "thumb")) in E.
    vm_compute in E. discriminate E.
  - apply processed_name_deterministic; vm_compute; reflexivity.
Defined.

(** C4, the claim as stated fails: with a PPOI field configured, an
    empty value, a value that is no pair of floats and a missing
    attribute all make [_ppoi] raise; none of them gives the default. *)
Lemma ppoi_unparsable_raises :
  _ppoi file_empty_ppoi = Raise ValueError
  /\ _ppoi file_bad_ppoi = Raise ValueError
  /\ _ppoi file_no_ppoi_attr = Raise AttributeError.
Proof. repeat split; vm_compute; reflexivity. Qed.

End ResolverExamples.

(** * The generation engine *)

Section EngineFacts.
Context {FM : FloatModel} {IM : Imaging} {BE : Backend}.

Lemma add_log_app (a b : list op) (w : World) :
  add_log b (add_log a w) = add_log (a ++ b) w.
Proof. unfold add_log. simpl. now rewrite <- app_assoc. Qed.

Lemma add_log_nil (w : World) : add_log [] w = w.
Proof. destruct w. unfold add_log. simpl. now rewrite app_nil_r. Qed.

Lemma eqb_name_false (s : string) : s <> EmptyString -> String.eqb s "" = false.
Proof. intros H. now apply String.eqb_neq. Qed.

(** The full generation, step by step, when every stage succeeds. *)
Lemma generate_ok (self : ImageFieldFile) (processors : list Processor)
    (target : string) (orig : list Z) (image : Image) (ppoi : list float)
    handler (image' : Image) (ctx' : list float * SaveKwargs) (buf : list Z)
    (w : World) :
  name self <> EmptyString ->
  files w !! name self = Some orig ->
  image_open orig = Ok image ->
  _ppoi self = Ok ppoi ->
  build_handler processors = Ok handler ->
  handler image (ppoi, no_kwargs) = Ok (image', ctx') ->
  image_save image' (image_format image) (snd ctx') = Ok buf ->
  target ∉ broken w ->
  generate self processors target w =
    (Ok tt,
     add_log [OpOpen (name self); OpDecode; OpPipeline; OpEncode;
              OpDelete target; OpSave target buf]
             (set_files (<[target := buf]> (files w)) w)).
Proof.
  intros Hname Hsrc Hdec Hp Hb Hh Hs Hbr.
  unfold generate, file_open. rewrite (eqb_name_false _ Hname).
  unfold bind at 1. unfold storage_open, bind at 1, tell. cbn [files add_log].
  rewrite Hsrc.
  unfold bind, lift, tell, ret. rewrite Hdec, Hp, Hb, Hh. cbn [snd].
  rewrite Hs. unfold storage_delete, bind, tell. cbn [broken add_log].
  rewrite (bool_decide_eq_false_2 _ Hbr).
  unfold storage_save, get_available_name, bind, tell.
  cbn [files set_files add_log broken]. rewrite lookup_delete_eq.
  rewrite (bool_decide_eq_false_2 _ Hbr).
  unfold set_files, add_log. cbn [files broken db log].
  rewrite insert_delete_eq, <- !app_assoc. reflexivity.
Qed.

(** Conversely, a generation that returns has gone through every stage
    and left its result at [target]. *)
Lemma generate_inv (self : ImageFieldFile) (processors : list Processor)
    (target : string) (w w1 : World) :
  generate self processors target w = (Ok tt, w1) ->
  exists buf,
    w1 = add_log [OpOpen (name self); OpDecode; OpPipeline; OpEncode;
                  OpDelete target; OpSave target buf]
                 (set_files (<[target := buf]> (files w)) w).
Proof.
  intros H. pose proof H as H'. revert H'.
  unfold generate, file_open.
  destruct (String.eqb (name self) "") eqn:Hname; [discriminate|].
  unfold bind at 1. unfold storage_open, bind at 1, tell. cbn [files add_log].
  destruct (files w !! name self) as [orig|] eqn:Hsrc; [|discriminate].
  unfold bind, lift, tell, ret.
  destruct (image_open orig) as [image|] eqn:Hdec; [|discriminate].
  destruct (_ppoi self) as [ppoi|] eqn:Hp; [|discriminate].
  destruct (build_handler processors) as [handler|] eqn:Hb; [|discriminate].
  destruct (handler image (ppoi, no_kwargs)) as [[image' ctx']|] eqn:Hh;
    [|discriminate].
  destruct (image_save image' (image_format image) ctx'.2) as [buf|] eqn:Hs;
    [|discriminate].
  unfold storage_delete, bind, tell. cbn [broken add_log].
  destruct (bool_decide (target ∈ broken w)) eqn:Hbr; [discriminate|].
  intros _. apply bool_decide_eq_false_1 in Hbr. apply String.eqb_neq in Hname.
  rewrite (generate_ok self processors target orig image ppoi handler
             image' ctx' buf w) in H by assumption.
  injection H as <-. now exists buf.
Qed.

Lemma processed_name_ppoi (self : ImageFieldFile) (processors : list Processor)
    (target : string) :
  _processed_name self processors = Ok target -> exists ppoi, _ppoi self = Ok ppoi.
Proof.
  unfold _processed_name. destruct (_ppoi self) as [ppoi|]; [|discriminate].
  intros _. now exists ppoi.
Qed.

(** C5.  Whenever a call of [process] with [force=False] returns, it was
    either a cache hit (one existence check, nothing else) or one full
    run of open, decode, pipeline, encode, delete and save that left the
    encoded bytes at the resolved path; and a second call with
    [force=False] then returns after the existence check alone: it opens
    nothing, runs no stage and leaves the files untouched. *)
Theorem process_twice_generates_once
    (self : ImageFieldFile) (item : string) (w w1 : World) :
  process self item false w = (Ok tt, w1) ->
  exists processors target,
    dict_get (formats (field self)) item = Some processors
    /\ _processed_name self processors = Ok target
    /\ ((is_Some (files w !! target) /\ w1 = add_log [OpExists target] w)
        \/ (files w !! target = None /\
            exists buf,
              w1 = add_log [OpExists target; OpOpen (name self); OpDecode;
                            OpPipeline; OpEncode; OpDelete target;
                            OpSave target buf]
                           (set_files (<[target := buf]> (files w)) w)))
    /\ process self item false w1 = (Ok tt, add_log [OpExists target] w1).
Proof.
  unfold process.
  destruct (dict_get (formats (field self)) item) as [processors|]; [|discriminate].
  destruct (_processed_name self processors) as [target|] eqn:Ht; [|discriminate].
  unfold bind at 1 3. unfold lift at 1 2.
  unfold bind at 1 2. unfold storage_exists, bind, tell, ret. cbn [files add_log].
  intros H. exists processors, target. split; [reflexivity|]. split; [exact Ht|].
  destruct (bool_decide (is_Some (files w !! target))) eqn:Hex.
  - apply bool_decide_eq_true_1 in Hex. injection H as <-.
    split; [left; now split|].
    cbn [files add_log]. now rewrite (bool_decide_eq_true_2 _ Hex).
  - apply bool_decide_eq_false_1 in Hex.
    apply generate_inv in H as [buf ->].
    split.
    + right. split; [now apply eq_None_not_Some|].
      exists buf. unfold add_log, set_files. cbn [files broken db log].
      now rewrite <- app_assoc.
    + cbn [files add_log set_files]. rewrite lookup_insert_eq.
      rewrite bool_decide_eq_true_2 by (now exists buf). reflexivity.
Qed.

(** C6.  With [force=True], [process] does not ask whether the target
    exists: given a readable, decodable source and a pipeline and
    encoder that succeed, it opens and decodes the source, runs the
    pipeline, encodes, deletes the resolved path and then saves the new
    bytes there.  Afterwards the path holds exactly these bytes, whether
    or not a file was there before. *)
Theorem process_force_regenerates
    (self : ImageFieldFile) (item : string) (processors : list Processor)
    (target : string) (orig : list Z) (image : Image) (ppoi : list float)
    handler (image' : Image) (ctx' : list float * SaveKwargs) (buf : list Z)
    (w : World) :
  dict_get (formats (field self)) item = Some processors ->
  _processed_name self processors = Ok target ->
  name self <> EmptyString ->
  files w !! name self = Some orig ->
  image_open orig = Ok image ->
  _ppoi self = Ok ppoi ->
  build_handler processors = Ok handler ->
  handler image (ppoi, no_kwargs) = Ok (image', ctx') ->
  image_save image' (image_format image) (snd ctx') = Ok buf ->
  target ∉ broken w ->
  let w1 := add_log [OpOpen (name self); OpDecode; OpPipeline; OpEncode;
                     OpDelete target; OpSave target buf]
                    (set_files (<[target := buf]> (files w)) w) in
  process self item true w = (Ok tt, w1)
  /\ files w1 !! target = Some buf.
Proof.
  intros Hitem Ht Hname Hsrc Hdec Hp Hb Hh Hs Hbr w1. split.
  - unfold process. rewrite Hitem, Ht.
    unfold bind at 1. unfold lift. unfold bind at 1. unfold ret at 1.
    now apply (generate_ok self processors target orig image ppoi handler image' ctx').
  - subst w1. cbn [files add_log set_files]. apply lookup_insert_eq.
Qed.

(** C10.  For a name that is a declared format and is not yet in the
    object's [__dict__], attribute access goes through [__getattr__]: it
    returns [storage.url] of the resolved path and stores it on the
    object.  Every later access of that name finds the stored value and
    neither resolves the path nor calls the storage.  A name that is no
    declared format (and not in the [__dict__]) raises
    [AttributeError]. *)
Theorem getattr_memoizes
    (self : ImageFieldFile) (item : string) (processors : list Processor)
    (target : string) :
  dict_get (formats (field self)) item = Some processors ->
  _processed_name self processors = Ok target ->
  memo self !! item = None ->
  let url := storage_url target in
  let self' := set_memo self item url in
  (forall w, get_attribute self item w =
               (Ok (url, self'), add_log [OpUrl target] w))
  /\ (forall w, __getattr__ self item w =
                  (Ok (url, self'), add_log [OpUrl target] w))
  /\ memo self' !! item = Some url
  /\ (forall w, get_attribute self' item w = (Ok (url, self'), w))
  /\ (forall other w,
        dict_get (formats (field self)) other = None ->
        memo self !! other = None ->
        get_attribute self other w = (Raise AttributeError, w)
        /\ __getattr__ self other w = (Raise AttributeError, w)).
Proof.
  intros Hitem Ht Hmemo url self'.
  assert (Hget : forall w, __getattr__ self item w =
                             (Ok (url, self'), add_log [OpUrl target] w)).
  { intros w. unfold __getattr__. rewrite Hitem, Ht. reflexivity. }
  split; [|split; [|split; [|split]]].
  - intros w. unfold get_attribute. rewrite Hmemo. apply Hget.
  - exact Hget.
  - subst self'. cbn [memo set_memo]. apply lookup_insert_eq.
  - intros w. unfold get_attribute. subst self'. cbn [memo set_memo].
    rewrite lookup_insert_eq. reflexivity.
  - intros other w Hother Hnone. unfold get_attribute, __getattr__.
    rewrite Hnone, Hother. split; reflexivity.
Qed.

(** C2, what the code does: the post-delete hook raises [NameError] at
    its first statement and leaves the storage as it was. *)
Theorem clear_generated_files_raises (i : Instance) (w : World) :
  _clear_generated_files i w = (Raise NameError, w).
Proof. reflexivity. Qed.

End EngineFacts.

Section EngineExamples.
Import Demo Samples.

Lemma process_twice_generates_once_witness :
  exists w1,
    process file_a "thumb" false fresh_world = (Ok tt, w1)
    /\ log w1 = [OpExists thumb_path; OpOpen "photos/a.jpg"; OpDecode;
                 OpPipeline; OpEncode; OpDelete thumb_path;
                 OpSave thumb_path jpeg]
    /\ process file_a "thumb" false w1 = (Ok tt, add_log [OpExists thumb_path] w1).
Proof.
  eexists. split; [vm_compute; reflexivity|]. split; [vm_compute; reflexivity|].
  match goal with
  | |- process _ _ _ ?w1 = _ =>
      assert (H : process file_a "thumb" false fresh_world = (Ok tt, w1))
        by (vm_compute; reflexivity)
  end.
  destruct (process_twice_generates_once _ _ _ _ H)
    as (processors & target & Hd & Ht & _ & H2).
  vm_compute in Hd. injection Hd as <-.
  vm_compute in Ht. injection Ht as <-.
  exact H2.
Defined.

Lemma process_force_regenerates_witness :
  files stale_world !! thumb_path = Some [0xFF; 9; 9]
  /\ exists w1,
       process file_a "thumb" true stale_world = (Ok tt, w1)
       /\ files w1 !! thumb_path = Some jpeg
       /\ log w1 = [OpOpen "photos/a.jpg"; OpDecode; OpPipeline; OpEncode;
                    OpDelete thumb_path; OpSave thumb_path jpeg].
Proof.
  split; [vm_compute; reflexivity|].
  assert (H1 : dict_get (formats (field file_a)) "thumb" = Some thumb)
    by (vm_compute; reflexivity).
  assert (H2 : _processed_name file_a thumb = Ok thumb_path)
    by (vm_compute; reflexivity).
  assert (H3 : name file_a <> EmptyString) by (vm_compute; discriminate).
  assert (H4 : files stale_world !! name file_a = Some jpeg)
    by (vm_compute; reflexivity).
  assert (H5 : image_open jpeg = Ok (Img "JPEG" [1; 2; 3; 4])) by reflexivity.
  assert (H6 : _ppoi file_a = Ok [float_half; float_half])
    by (vm_compute; reflexivity).
  assert (H7 : build_handler thumb =
               Ok (fun i ctx =>
                     fold_left (fun acc p => rbind acc (step p)) thumb (Ok (i, ctx))))
    by reflexivity.
  assert (H8 : (fun i ctx =>
                  fold_left (fun acc p => rbind acc (step p)) thumb (Ok (i, ctx)))
                 (Img "JPEG" [1; 2; 3; 4]) ([float_half; float_half], no_kwargs)
               = Ok (Img "JPEG" [1; 2; 3; 4],
                     ([float_half; float_half], [("quality", 90)])))
    by (vm_compute; reflexivity).
  assert (H9 : image_save (Img "JPEG" [1; 2; 3; 4])
                 (image_format (Img "JPEG" [1; 2; 3; 4]))
                 (snd ([float_half; float_half], [("quality", 90)])) = Ok jpeg)
    by reflexivity.
  assert (H10 : thumb_path ∉ broken stale_world) by apply not_elem_of_empty.
  destruct (process_force_regenerates file_a "thumb" thumb thumb_path jpeg _ _ _ _ _
              jpeg stale_world H1 H2 H3 H4 H5 H6 H7 H8 H9 H10) as [E1 E2].
  eexists. split; [exact E1|]. split; [exact E2|]. vm_compute. reflexivity.
Defined.

Lemma getattr_memoizes_witness :
  let url := "/media/" +:+ thumb_path in
  get_attribute file_a "thumb" fresh_world =
    (Ok (url, set_memo file_a "thumb" url), add_log [OpUrl thumb_path] fresh_world)
  /\ get_attribute (set_memo file_a "thumb" url) "thumb" stale_world =
       (Ok (url, set_memo file_a "thumb" url), stale_world)
  /\ get_attribute file_a "poster" fresh_world = (Raise AttributeError, fresh_world).
Proof.
  assert (H1 : dict_get (formats (field file_a)) "thumb" = Some thumb)
    by (vm_compute; reflexivity).
  assert (H2 : _processed_name file_a thumb = Ok thumb_path)
    by (vm_compute; reflexivity).
  assert (H3 : memo file_a !! "thumb" = None) by (vm_compute; reflexivity).
  destruct (getattr_memoizes file_a "thumb" thumb thumb_path H1 H2 H3)
    as (G1 & _ & _ & G2 & G3).
  split; [apply G1|]. split; [apply G2|].
  apply G3; vm_compute; reflexivity.
Defined.

(** C2 on a concrete input: a derivative of ["photos/a.jpg"] lies under
    the folder and prefix that [_processed_base] gives for the source;
    the hook raises and the derivative is still there. *)
Example clear_generated_files_leaves_derivative :
  _processed_base file_a = ("__processed__/RB", "0FE7Lu5G6ptcSBUA_LYkQUQ1g_")
  /\ PyStr.startswith "__processed__/RB/0FE7Lu5G6ptcSBUA_LYkQUQ1g_" thumb_path = true
  /\ _clear_generated_files (photo "photos/a.jpg" "0.5x0.5") stale_world =
       (Raise NameError, stale_world)
  /\ files stale_world !! thumb_path = Some [0xFF; 9; 9].
Proof. repeat split; vm_compute; reflexivity. Qed.

End EngineExamples.

(** * The management command *)

Section CommandFacts.
Context {FM : FloatModel} {IM : Imaging} {BE : Backend}.

(** C3, what the code does: called with an empty list of filters,
    [_make_filter] leaves the empty dict in [_filter] (the assignment of
    [None] is overwritten), and [_skip_field] then skips every field. *)
Theorem make_filter_empty_skips_every_field (self : Command) (field : ImageField) :
  _filter (_make_filter self []) = Some ∅
  /\ _skip_field (_make_filter self []) field = true.
Proof.
  split; [reflexivity|].
  unfold _skip_field, _make_filter. cbn [fold_left _filter].
  now rewrite lookup_empty.
Qed.

(** The second half of C3 holds: a filter that maps the model of a field
    to the empty list of names does not skip the field. *)
Lemma skip_field_model_filter (self : Command) (flt : gmap string (list string))
    (field : ImageField) :
  _filter self = Some flt ->
  flt !! label_lower field = Some [] ->
  _skip_field self field = false.
Proof. intros Hf Hl. unfold _skip_field. now rewrite Hf, Hl. Qed.

(** [process] and everything under it leave the database alone. *)
Lemma keeps_db_ret {A} (a : A) : keeps_db (ret a).
Proof. intros w. reflexivity. Qed.

Lemma keeps_db_raise {A} (e : exn) : keeps_db (@raise A e).
Proof. intros w. reflexivity. Qed.

Lemma keeps_db_lift {A} (r : result A) : keeps_db (lift r).
Proof. intros w. reflexivity. Qed.

Lemma keeps_db_tell (o : op) : keeps_db (tell o).
Proof. intros w. reflexivity. Qed.

Lemma keeps_db_bind {A B} (m : M A) (k : A -> M B) :
  keeps_db m -> (forall a, keeps_db (k a)) -> keeps_db (bind m k).
Proof.
  intros Hm Hk w. unfold bind. specialize (Hm w).
  destruct (m w) as [[a|e] w']; simpl in *; [|assumption].
  now rewrite Hk.
Qed.

Lemma keeps_db_storage_exists (path : string) : keeps_db (storage_exists path).
Proof. intros w. reflexivity. Qed.

Lemma keeps_db_storage_open (path : string) : keeps_db (storage_open path).
Proof.
  intros w. unfold storage_open, bind, tell. cbn [files add_log].
  now destruct (files w !! path).
Qed.

Lemma keeps_db_storage_delete (path : string) : keeps_db (storage_delete path).
Proof.
  intros w. unfold storage_delete, bind, tell. cbn [broken add_log].
  now destruct (bool_decide _).
Qed.

Lemma keeps_db_storage_save (path : string) (content : list Z) :
  keeps_db (storage_save path content).
Proof.
  intros w. unfold storage_save, get_available_name, bind, tell.
  destruct (files w !! path); cbn [broken add_log]; now destruct (bool_decide _).
Qed.

Lemma keeps_db_generate (self : ImageFieldFile) (processors : list Processor)
    (target : string) :
  keeps_db (generate self processors target).
Proof.
  unfold generate.
  apply keeps_db_bind.
  { unfold file_open. destruct (String.eqb _ _);
      [apply keeps_db_raise | apply keeps_db_storage_open]. }
  intros orig.
  repeat (first
    [ apply keeps_db_ret | apply keeps_db_tell | apply keeps_db_lift
    | apply keeps_db_storage_delete | apply keeps_db_storage_save
    | apply keeps_db_bind; [|intros ?]
    | match goal with |- keeps_db (let '(_, _) := ?r in _) => destruct r end ]).
Qed.

Lemma keeps_db_process (self : ImageFieldFile) (item : string) (force : bool) :
  keeps_db (process self item force).
Proof.
  unfold process. destruct (dict_get _ _); [|apply keeps_db_raise].
  apply keeps_db_bind; [apply keeps_db_lift|]. intros target.
  apply keeps_db_bind.
  { destruct force; [apply keeps_db_ret | apply keeps_db_storage_exists]. }
  intros [|]; [apply keeps_db_ret | apply keeps_db_generate].
Qed.

Lemma attempt_db (force : bool) (w : World) (it : ImageFieldFile * string) :
  db (attempt force w it) = db w.
Proof. apply keeps_db_process. Qed.

Lemma attempts_db (force : bool) (items : list (ImageFieldFile * string)) (w : World) :
  db (fold_left (attempt force) items w) = db w.
Proof.
  revert w. induction items as [|it items IH]; intros w; simpl; [reflexivity|].
  now rewrite IH, attempt_db.
Qed.

(** A loop whose body always returns runs to its end. *)
Lemma for_each_total {A} (body : A -> M unit) (g : World -> A -> World)
    (l : list A) (w : World) :
  (forall x w, body x w = (Ok tt, g w x)) ->
  for_each l body w = (Ok tt, fold_left g l w).
Proof.
  intros Hbody. revert w. induction l as [|x l IH]; intros w; simpl.
  - reflexivity.
  - unfold bind. rewrite Hbody. apply IH.
Qed.

Lemma try_except_pass (m : M unit) (w : World) :
  try_except m (fun _ => ret tt) w = (Ok tt, snd (m w)).
Proof. unfold try_except. now destruct (m w) as [[[]|e] w']. Qed.

Lemma fold_left_map_items {A B C} (g : C -> B -> C) (f : A -> B) (l : list A) (c : C) :
  fold_left g (map f l) c = fold_left (fun c a => g c (f a)) l c.
Proof. revert c. induction l as [|a l IH]; intros c; simpl; [reflexivity | apply IH]. Qed.

Lemma fold_left_flat_map {A B C} (g : C -> B -> C) (f : A -> list B) (l : list A) (c : C) :
  fold_left g (flat_map f l) c = fold_left (fun c a => fold_left g (f a) c) l c.
Proof.
  revert c. induction l as [|a l IH]; intros c; simpl; [reflexivity|].
  now rewrite fold_left_app, IH.
Qed.

Lemma handle_record_total (field : ImageField) (force : bool) (i : Instance)
    (w : World) :
  handle_record field force i w =
    (Ok tt, fold_left (attempt force) (record_items field i) w).
Proof.
  unfold handle_record, record_items.
  destruct (String.eqb (name (fieldfile i field)) ""); [reflexivity|].
  rewrite fold_left_map_items.
  apply (for_each_total _ (fun w key => attempt force w (fieldfile i field, key))).
  intros key w'. apply try_except_pass.
Qed.

Lemma handle_field_total (self : Command) (force : bool) (field : ImageField)
    (w : World) :
  handle_field self force field w =
    (Ok tt, fold_left (attempt force) (field_items self w field) w).
Proof.
  unfold handle_field, field_items.
  destruct (_skip_field self field); [reflexivity|].
  unfold bind, queryset. rewrite fold_left_flat_map.
  apply (for_each_total _ (fun w i => fold_left (attempt force) (record_items field i) w)).
  intros i w'. apply handle_record_total.
Qed.

Lemma field_items_db (self : Command) (w w' : World) (field : ImageField) :
  db w' = db w -> field_items self w' field = field_items self w field.
Proof. intros E. unfold field_items. now rewrite E. Qed.

Lemma handle_fields_total (self : Command) (force : bool)
    (l : list ImageField) (w0 w : World) :
  db w = db w0 ->
  for_each l (handle_field self force) w =
    (Ok tt, fold_left (attempt force) (flat_map (field_items self w0) l) w).
Proof.
  revert w. induction l as [|field l IH]; intros w Hdb; simpl; [reflexivity|].
  unfold bind. rewrite handle_field_total, fold_left_app.
  rewrite (field_items_db self w0 w field Hdb).
  apply IH. now rewrite attempts_db.
Qed.

(** C9.  [handle] always returns normally, and the world it leaves is
    the one obtained by calling [process] for every record with an image
    and every format of every field that is not skipped, one after the
    other: an exception raised by one of these calls is dropped and the
    next call is made all the same. *)
Theorem handle_completes_batch
    (self : Command) (IMAGE_FIELDS : list ImageField) (fields : list string)
    (force : bool) (w : World) :
  handle self IMAGE_FIELDS fields force w =
    (Ok tt,
     fold_left (attempt force)
               (work_items (_make_filter self fields) IMAGE_FIELDS w) w).
Proof. unfold handle, work_items. now apply handle_fields_total. Qed.

End CommandFacts.

(** * Sensitivity of the resolved path *)

Section Sensitivity.
Context {FM : FloatModel} {IM : Imaging}.

(** Nothing of either hash and nothing of the extension is lost in the
    path: two resolved paths are equal exactly when the two source names
    have the same [urlhash] and the same extension and the two recipe
    texts (processors and PPOI) have the same [urlhash]. *)
Lemma processed_name_equal_iff_hashes_equal
    (f1 f2 : ImageFieldFile) (procs1 procs2 : list Processor)
    (ppoi1 ppoi2 : list float) :
  _ppoi f1 = Ok ppoi1 ->
  _ppoi f2 = Ok ppoi2 ->
  _processed_name f1 procs1 = _processed_name f2 procs2 <->
  urlhash (name f1) = urlhash (name f2)
  /\ urlhash (recipe_text procs1 ppoi1) = urlhash (recipe_text procs2 ppoi2)
  /\ snd (splitext (name f1)) = snd (splitext (name f2)).
Proof.
  intros H1 H2. unfold _processed_name. rewrite H1, H2. cbn [rbind].
  destruct (splitext (name f1)) as [r1 e1], (splitext (name f2)) as [r2 e2].
  cbn [snd].
  set (h1 := urlhash (name f1)). set (h2 := urlhash (name f2)).
  set (q1 := urlhash (recipe_text procs1 ppoi1)).
  set (q2 := urlhash (recipe_text procs2 ppoi2)).
  assert (L1 : String.length h1 = 27%nat) by apply urlhash_length.
  assert (L2 : String.length h2 = 27%nat) by apply urlhash_length.
  split.
  - intros [= E].
    apply string_app_inj_length in E as [_ E]; [|reflexivity].
    apply string_app_inj_length in E as [Ea E];
      [|rewrite !length_take; lia].
    apply string_app_inj_length in E as [_ E]; [|reflexivity].
    apply string_app_inj_length in E as [Eb E];
      [|rewrite !length_drop; lia].
    apply string_app_inj_length in E as [_ E]; [|reflexivity].
    apply string_app_inj_length in E as [Ec E];
      [|unfold q1, q2; now rewrite !urlhash_length].
    repeat split; try assumption.
    rewrite <- (take_drop 2 h1), <- (take_drop 2 h2). now rewrite Ea, Eb.
  - intros (-> & -> & ->). reflexivity.
Qed.

End Sensitivity.

Section CommandExamples.
Import Demo Samples.

(** C9 on a concrete batch: the run returns normally; all three records
    with an image are tried for both formats, the two failures of the
    undecodable record are dropped, and the record after it gets its
    derivatives. *)
Example batch_survives_undecodable_record :
  let r := handle {| _filter := None |} [photo_field] ["app.Photo"] false batch_world in
  fst r = Ok tt
  /\ length (List.filter is_exists (log (snd r))) = 6%nat
  /\ length (List.filter is_save (log (snd r))) = 4%nat
  /\ process (fieldfile (photo "photos/bad.jpg" "0.5x0.5") photo_field) "thumb"
       false batch_world
     = (Raise DecodeError,
        add_log [OpExists "__processed__/Nq/HMlkKHnYUcGyc0r1z0P9iFCRE_JldRySV912xz1PLdp4lX4XcXpf0.jpg";
                 OpOpen "photos/bad.jpg"; OpDecode] batch_world)
  /\ files (snd r)
       !! "__processed__/11/6PfQggSNTXNg8n2KvNK1rP4WM_bE2tHDLFEEiGQLmhCWDmgUeRDe8.png"
     = Some [0x89; 7; 7].
Proof. repeat split; vm_compute; reflexivity. Qed.

(** C3 on concrete inputs: without filters the command processes
    nothing, although the registry holds a field with records; with the
    filter ['app.Photo'] the field is processed. *)
Example no_filter_processes_nothing :
  handle {| _filter := None |} [photo_field] [] true batch_world = (Ok tt, batch_world)
  /\ work_items (_make_filter {| _filter := None |} []) [photo_field] batch_world = []
  /\ _skip_field (_make_filter {| _filter := None |} ["app.Photo"]) photo_field = false
  /\ length (work_items (_make_filter {| _filter := None |} ["app.Photo"])
                        [photo_field] batch_world) = 6%nat.
Proof. repeat split; vm_compute; reflexivity. Qed.

End CommandExamples.

(** * Further properties of the code *)

Section PathFacts.
Context {FM : FloatModel} {IM : Imaging}.

Lemma string_app_assoc (a b c : string) : (a +:+ b) +:+ c = a +:+ b +:+ c.
Proof. apply chars_inj. rewrite !chars_app. now rewrite <- app_assoc. Qed.

Lemma prefix_app (p r : string) : String.prefix p (p +:+ r) = true.
Proof.
  induction p as [|a p IH]; simpl; [now destruct r|].
  destruct (ascii_dec a a) as [_|Hne]; [assumption | now destruct Hne].
Qed.

Lemma prefix_inv (p s : string) :
  String.prefix p s = true -> exists r, s = p +:+ r.
Proof.
  revert s. induction p as [|a p IH]; intros [|b s]; simpl.
  - intros _. now exists EmptyString.
  - intros _. now exists (String b s).
  - discriminate.
  - destruct (ascii_dec a b) as [<-|]; [|discriminate].
    intros [r ->]%IH. now exists r.
Qed.

Lemma char_in_alphabet (n : Z) : In (Base64.char n) Base64.alphabet.
Proof.
  unfold Base64.char.
  destruct (nth_in_or_default (Z.to_nat n) Base64.alphabet "A"%char) as [Hin | ->];
    [assumption | now left].
Qed.

Lemma encode_20_alphabet (l : list Z) :
  length l = 20%nat ->
  Forall (fun c => In c Base64.alphabet) (Base64.urlsafe_base64_encode l).
Proof.
  intros Hl.
  do 20 (destruct l as [|? l]; [discriminate Hl|]).
  destruct l; [|discriminate Hl].
  unfold Base64.urlsafe_base64_encode, PyStr.rstrip_chars.
  cbn [Base64.encode rev app PyStr.lstrip_chars].
  change (PyStr.in_chars ["010"%char; "="%char] "="%char) with true. cbv iota.
  rewrite char_not_stripped. cbn [rev app].
  repeat (constructor; [apply char_in_alphabet|]). constructor.
Qed.

Lemma urlhash_in_alphabet (s : string) :
  Forall (fun c => In c Base64.alphabet) (PyStr.chars (urlhash s)).
Proof. unfold urlhash. rewrite chars_of_chars. apply encode_20_alphabet, digest_length. Qed.

Lemma urlhash_avoids (s : string) (c : ascii) :
  ~ In c Base64.alphabet -> ~ In c (PyStr.chars (urlhash s)).
Proof.
  intros Hc Hin. pose proof (urlhash_in_alphabet s) as Hall.
  rewrite Forall_forall in Hall. apply Hc, Hall. now apply list_elem_of_In.
Qed.

Lemma urlhash_no_slash (s : string) : ~ In "/"%char (PyStr.chars (urlhash s)).
Proof. apply urlhash_avoids. vm_compute. intuition discriminate. Qed.

Lemma urlhash_no_dot (s : string) : ~ In "."%char (PyStr.chars (urlhash s)).
Proof. apply urlhash_avoids. vm_compute. intuition discriminate. Qed.

(** X1.  [urlhash] always gives 27 characters of the URL-safe alphabet
    [A-Za-z0-9-_]: the text never holds a slash, a dot or a padding
    sign, whatever string is hashed. *)
Theorem urlhash_url_safe (s : string) :
  String.length (urlhash s) = 27%nat
  /\ Forall (fun c => In c Base64.alphabet) (PyStr.chars (urlhash s))
  /\ ~ In "/"%char (PyStr.chars (urlhash s))
  /\ ~ In "."%char (PyStr.chars (urlhash s))
  /\ ~ In "="%char (PyStr.chars (urlhash s)).
Proof.
  split; [apply urlhash_length|]. split; [apply urlhash_in_alphabet|].
  split; [apply urlhash_no_slash|]. split; [apply urlhash_no_dot|].
  apply urlhash_avoids. vm_compute. intuition discriminate.
Qed.

End PathFacts.

Section PathFacts2.
Context {FM : FloatModel} {IM : Imaging}.

Lemma processed_name_inv (self : ImageFieldFile) (processors : list Processor)
    (target : string) :
  _processed_name self processors = Ok target ->
  exists ppoi,
    _ppoi self = Ok ppoi /\
    target = "__processed__/" +:+ PyStr.take 2 (urlhash (name self)) +:+ "/"
               +:+ PyStr.drop 2 (urlhash (name self)) +:+ "_"
               +:+ urlhash (recipe_text processors ppoi)
               +:+ snd (splitext (name self)).
Proof.
  unfold _processed_name. destruct (_ppoi self) as [ppoi|]; [|discriminate].
  cbn [rbind]. destruct (splitext (name self)) as [r e]. intros [= <-].
  now exists ppoi.
Qed.

(** X3.  Every path that [_processed_name] resolves for a field file
    lies in the folder that [_processed_base] gives for it and its file
    name starts with the prefix that [_processed_base] gives; what
    follows the prefix has at least 27 characters and no slash, so the
    file sits directly in that folder. *)
Theorem processed_name_under_base
    (self : ImageFieldFile) (processors : list Processor) (target : string) :
  _processed_name self processors = Ok target ->
  let folder := fst (_processed_base self) in
  let prefix := snd (_processed_base self) in
  PyStr.startswith (folder +:+ "/" +:+ prefix) target = true
  /\ exists rest,
       target = folder +:+ "/" +:+ prefix +:+ rest
       /\ (27 <= String.length rest)%nat
       /\ ~ In "/"%char (PyStr.chars rest).
Proof.
  intros (ppoi & _ & ->)%processed_name_inv folder prefix.
  subst folder prefix. unfold _processed_base. cbn [fst snd].
  set (h := urlhash (name self)). set (q := urlhash (recipe_text processors ppoi)).
  set (e := snd (splitext (name self))).
  assert (E : "__processed__/" +:+ PyStr.take 2 h +:+ "/" +:+ PyStr.drop 2 h +:+ "_" +:+ q +:+ e
              = (("__processed__/" +:+ PyStr.take 2 h) +:+ "/" +:+ PyStr.drop 2 h +:+ "_")
                  +:+ (q +:+ e)).
  { now rewrite !string_app_assoc. }
  split.
  - rewrite E. apply prefix_app.
  - exists (q +:+ e). split; [|split].
    + rewrite E. now rewrite !string_app_assoc.
    + rewrite <- length_chars, chars_app, length_app, !length_chars.
      unfold q. rewrite urlhash_length. lia.
    + rewrite chars_app. intros [Hin | Hin]%in_app_or.
      * now apply (urlhash_no_slash (recipe_text processors ppoi)) in Hin.
      * subst e. destruct (splitext_ext (name self)) as [E0 | (r & Er & _ & Hs)].
        -- rewrite E0 in Hin. destruct Hin.
        -- rewrite Er in Hin. destruct Hin as [Hin | Hin]; [discriminate | now apply Hs].
Qed.

(** X4.  A resolved path of one source matches the folder and prefix of
    another field file only if the two source names have the same
    [urlhash], and then the two have the same folder and prefix: prefix
    matching does not catch derivatives of a source that hashes
    differently. *)
Theorem base_prefix_identifies_source
    (f1 f2 : ImageFieldFile) (processors : list Processor) (target : string) :
  _processed_name f2 processors = Ok target ->
  PyStr.startswith
    (fst (_processed_base f1) +:+ "/" +:+ snd (_processed_base f1)) target = true ->
  urlhash (name f1) = urlhash (name f2) /\ _processed_base f1 = _processed_base f2.
Proof.
  intros (ppoi & _ & ->)%processed_name_inv [r E]%prefix_inv.
  unfold _processed_base in *. cbn [fst snd] in E.
  set (h1 := urlhash (name f1)) in *. set (h2 := urlhash (name f2)) in *.
  assert (L1 : String.length h1 = 27%nat) by apply urlhash_length.
  assert (L2 : String.length h2 = 27%nat) by apply urlhash_length.
  rewrite !string_app_assoc in E.
  apply string_app_inj_length in E as [_ E]; [|reflexivity].
  apply string_app_inj_length in E as [Ea E]; [|rewrite !length_take; lia].
  apply string_app_inj_length in E as [_ E]; [|reflexivity].
  apply string_app_inj_length in E as [Eb _]; [|rewrite !length_drop; lia].
  assert (Eh : h1 = h2).
  { rewrite <- (take_drop 2 h1), <- (take_drop 2 h2). now rewrite Ea, Eb. }
  split; [exact Eh | now rewrite Eh].
Qed.

End PathFacts2.

Section ExtFacts.
Context {FM : FloatModel} {IM : Imaging}.

Lemma rfind_from_notin (c : ascii) (l : list ascii) (i best : Z) :
  ~ In c l -> PyStr.rfind_from c i best l = best.
Proof.
  revert i best. induction l as [|a l IH]; intros i best Hn; simpl; [reflexivity|].
  rewrite IH by (intros H; apply Hn; now right).
  destruct (Ascii.eqb_spec a c) as [->|]; [|reflexivity].
  exfalso. apply Hn. now left.
Qed.

Lemma rfind_from_last (c : ascii) (p r : list ascii) (i best : Z) :
  ~ In c r -> PyStr.rfind_from c i best (p ++ c :: r) = i + Z.of_nat (length p).
Proof.
  intros Hr. revert i best. induction p as [|a p IH]; intros i best; simpl.
  - rewrite rfind_from_notin by assumption. rewrite Ascii.eqb_refl. lia.
  - rewrite IH. lia.
Qed.

Lemma rfind_last (c : ascii) (s : string) (p r : list ascii) :
  PyStr.chars s = p ++ c :: r -> ~ In c r -> PyStr.rfind c s = Z.of_nat (length p).
Proof. intros E Hr. unfold PyStr.rfind. rewrite E, rfind_from_last by assumption. lia. Qed.

Lemma slice_middle (a m b : list ascii) :
  slice (Z.of_nat (length a)) (Z.of_nat (length (a ++ m))) (a ++ m ++ b) = m.
Proof.
  unfold slice. rewrite Nat2Z.id, drop_app_length.
  replace (Z.to_nat _) with (length m) by (rewrite length_app; lia).
  apply take_app_length.
Qed.

(** X5.  Round trip of the extension: [os.path.splitext] of a resolved
    path gives back the extension of the source name, also when the
    source has none or when it is the bare dot. *)
Theorem processed_name_keeps_extension
    (self : ImageFieldFile) (processors : list Processor) (target : string) :
  _processed_name self processors = Ok target ->
  snd (splitext target) = snd (splitext (name self)).
Proof.
  intros (ppoi & _ & ->)%processed_name_inv.
  set (h := urlhash (name self)). set (q := urlhash (recipe_text processors ppoi)).
  set (e := snd (splitext (name self))).
  pose proof (urlhash_length (name self)) as Lh.
  pose proof (urlhash_no_slash (name self)) as Sh.
  pose proof (urlhash_no_dot (name self)) as Dh.
  pose proof (urlhash_no_slash (recipe_text processors ppoi)) as Sq.
  pose proof (urlhash_no_dot (recipe_text processors ppoi)) as Dq.
  fold h in Lh, Sh, Dh. fold q in Sq, Dq.
  (* the characters of the hash of the name *)
  rewrite <- length_chars in Lh.
  destruct (PyStr.chars h) as [|x1 [|x2 [|x3 tl]]] eqn:Eh; try discriminate Lh.
  assert (Ex3 : Ascii.eqb "." x3 = false).
  { apply Ascii.eqb_neq. intros E3. apply Dh. right. right. now left. }
  set (pre := PyStr.chars "__processed__/" ++ [x1; x2]).
  set (mid := x3 :: tl ++ "_"%char :: PyStr.chars q).
  assert (Echars : forall E, PyStr.chars ("__processed__/" +:+ PyStr.take 2 h +:+ "/"
                      +:+ PyStr.drop 2 h +:+ "_" +:+ q +:+ E)
                   = pre ++ "/"%char :: mid ++ PyStr.chars E).
  { intros E. rewrite !chars_app. unfold PyStr.take, PyStr.drop.
    rewrite !chars_of_chars, Eh. subst pre mid. cbn [firstn skipn].
    change (PyStr.chars "/") with ["/"%char]. change (PyStr.chars "_") with ["_"%char].
    repeat (rewrite <- app_assoc; cbn [app]). reflexivity. }
  assert (Hmid_slash : ~ In "/"%char mid).
  { subst mid. intros [E3 | Hin].
    - apply Sh. right. right. now left.
    - apply in_app_or in Hin as [Hin | [Hin | Hin]]; [|discriminate Hin|now apply Sq].
      apply Sh. right. right. now right. }
  assert (Hmid_dot : ~ In "."%char mid).
  { subst mid. intros [E3 | Hin].
    - apply Dh. right. right. now left.
    - apply in_app_or in Hin as [Hin | [Hin | Hin]]; [|discriminate Hin|now apply Dq].
      apply Dh. right. right. now right. }
  assert (Hpre_dot : ~ In "."%char pre).
  { subst pre. intros [Hin | Hin]%in_app_or.
    - vm_compute in Hin. intuition discriminate.
    - apply Dh. destruct Hin as [E1 | [E2 | []]]; [now left | right; now left]. }
  destruct (splitext_ext (name self)) as [E0 | (r & Er & Hrd & Hrs)]; fold e in E0 || fold e in Er.
  - (* no extension: the target has no dot *)
    rewrite E0. rewrite splitext_no_dot; [reflexivity|].
    rewrite Echars. cbn [PyStr.chars list_ascii_of_string]. rewrite app_nil_r.
    intros [Hin | Hin]%in_app_or; [now apply Hpre_dot|].
    destruct Hin as [Hin | Hin]; [discriminate Hin | now apply Hmid_dot].
  - (* an extension: it starts at the last dot of the target *)
    set (t := "__processed__/" +:+ PyStr.take 2 h +:+ "/" +:+ PyStr.drop 2 h
                +:+ "_" +:+ q +:+ e).
    assert (Et : PyStr.chars t = pre ++ "/"%char :: mid ++ "."%char :: r).
    { subst t. rewrite Echars. now rewrite Er. }
    assert (Hsep : PyStr.rfind "/" t = Z.of_nat (length pre)).
    { apply (rfind_last _ _ pre (mid ++ "."%char :: r)); [exact Et|].
      intros [Hin | [Hin | Hin]]%in_app_or;
        [now apply Hmid_slash | discriminate Hin | now apply Hrs]. }
    assert (Hdot : PyStr.rfind "." t = Z.of_nat (length (pre ++ "/"%char :: mid))).
    { apply (rfind_last _ _ (pre ++ "/"%char :: mid) r); [|exact Hrd].
      rewrite Et. now rewrite <- app_assoc. }
    unfold splitext. rewrite Hsep, Hdot.
    assert (Hgt : (Z.of_nat (length (pre ++ "/"%char :: mid)) >? Z.of_nat (length pre)) = true).
    { rewrite Z.gtb_ltb. apply Z.ltb_lt. rewrite length_app. simpl. lia. }
    rewrite Hgt.
    assert (Hsl : slice (Z.of_nat (length pre) + 1)
                    (Z.of_nat (length (pre ++ "/"%char :: mid))) (PyStr.chars t)
                  = mid).
    { rewrite Et.
      replace (pre ++ "/"%char :: mid ++ "."%char :: r)
        with ((pre ++ ["/"%char]) ++ mid ++ "."%char :: r)
        by (now rewrite <- app_assoc).
      replace (pre ++ "/"%char :: mid) with ((pre ++ ["/"%char]) ++ mid)
        by (now rewrite <- app_assoc).
      replace (Z.of_nat (length pre) + 1) with (Z.of_nat (length (pre ++ ["/"%char])))
        by (rewrite length_app; simpl; lia).
      apply slice_middle. }
    rewrite Hsl. subst mid. cbn [forallb]. rewrite Ex3. cbn [andb negb snd].
    unfold PyStr.drop. rewrite Nat2Z.id, Et.
    replace (pre ++ "/"%char :: (x3 :: tl ++ "_"%char :: PyStr.chars q) ++ "."%char :: r)
      with ((pre ++ "/"%char :: x3 :: tl ++ "_"%char :: PyStr.chars q) ++ "."%char :: r)
      by (now rewrite <- app_assoc).
    rewrite drop_app_length.
    rewrite <- Er. apply of_chars_chars.
Qed.

End ExtFacts.

Section Base64Facts.

Lemma range_forallb (P : Z -> bool) (n : Z) :
  forallb P (seqZ 0 n) = true -> forall x, 0 <= x < n -> P x = true.
Proof.
  intros H x Hx. rewrite forallb_forall in H. apply H.
  apply list_elem_of_In, elem_of_seqZ. lia.
Qed.

Lemma char_index (n : Z) :
  0 <= n < 64 -> index_in (Base64.char n) Base64.alphabet = n.
Proof.
  intros Hn. apply Z.eqb_eq.
  apply (range_forallb (fun n => index_in (Base64.char n) Base64.alphabet =? n) 64);
    [vm_compute; reflexivity | exact Hn].
Qed.

Lemma char_inj (m n : Z) :
  0 <= m < 64 -> 0 <= n < 64 -> Base64.char m = Base64.char n -> m = n.
Proof.
  intros Hm Hn E. rewrite <- (char_index m Hm), <- (char_index n Hn). now rewrite E.
Qed.

Lemma byte2 (P : Z -> Z -> bool) :
  forallb (fun a => forallb (P a) (seqZ 0 256)) (seqZ 0 256) = true ->
  forall a b, is_byte a -> is_byte b -> P a b = true.
Proof.
  intros H a b Ha Hb.
  apply (range_forallb (P a) 256); [|exact Hb].
  now apply (range_forallb (fun a => forallb (P a) (seqZ 0 256)) 256).
Qed.

(** Ranges, and how the bytes are read back from the indices. *)
Lemma sextets12_facts (a b : Z) :
  is_byte a -> is_byte b ->
  0 <= sextet1 a < 64 /\ 0 <= sextet2 a b < 64 /\ 4 * sextet1 a + sextet2 a b / 16 = a
  /\ sextet2 a b mod 16 = b / 16.
Proof.
  intros Ha Hb.
  assert (H := byte2 (fun a b =>
    (0 <=? sextet1 a) && (sextet1 a <? 64) && (0 <=? sextet2 a b) && (sextet2 a b <? 64)
    && (4 * sextet1 a + sextet2 a b / 16 =? a) && (sextet2 a b mod 16 =? b / 16))
    ltac:(vm_compute; reflexivity) a b Ha Hb).
  cbv beta in H. repeat (apply andb_true_iff in H as [H ?]). lia.
Qed.

Lemma sextets34_facts (b c : Z) :
  is_byte b -> is_byte c ->
  0 <= sextet3 b c < 64 /\ 0 <= sextet4 c < 64 /\ (sextet3 b c mod 4) * 64 + sextet4 c = c
  /\ sextet3 b c / 4 = b mod 16.
Proof.
  intros Hb Hc.
  assert (H := byte2 (fun b c =>
    (0 <=? sextet3 b c) && (sextet3 b c <? 64) && (0 <=? sextet4 c) && (sextet4 c <? 64)
    && ((sextet3 b c mod 4) * 64 + sextet4 c =? c) && (sextet3 b c / 4 =? b mod 16))
    ltac:(vm_compute; reflexivity) b c Hb Hc).
  cbv beta in H. repeat (apply andb_true_iff in H as [H ?]). lia.
Qed.

Lemma group_inj (a b c a' b' c' : Z) :
  is_byte a -> is_byte b -> is_byte c -> is_byte a' -> is_byte b' -> is_byte c' ->
  Base64.char (sextet1 a) = Base64.char (sextet1 a') ->
  Base64.char (sextet2 a b) = Base64.char (sextet2 a' b') ->
  Base64.char (sextet3 b c) = Base64.char (sextet3 b' c') ->
  Base64.char (sextet4 c) = Base64.char (sextet4 c') ->
  a = a' /\ b = b' /\ c = c'.
Proof.
  intros Ha Hb Hc Ha' Hb' Hc' E1 E2 E3 E4.
  destruct (sextets12_facts a b Ha Hb) as (R1 & R2 & Fa & Fb).
  destruct (sextets12_facts a' b' Ha' Hb') as (R1' & R2' & Fa' & Fb').
  destruct (sextets34_facts b c Hb Hc) as (R3 & R4 & Fc & Fd).
  destruct (sextets34_facts b' c' Hb' Hc') as (R3' & R4' & Fc' & Fd').
  apply char_inj in E1; [|assumption..]. apply char_inj in E2; [|assumption..].
  apply char_inj in E3; [|assumption..]. apply char_inj in E4; [|assumption..].
  rewrite E1, E2 in Fa. rewrite E2 in Fb. rewrite E3, E4 in Fc. rewrite E3 in Fd.
  unfold is_byte in *. repeat split; [lia | | lia].
  rewrite (Z.div_mod b 16), (Z.div_mod b' 16) by lia. lia.
Qed.

End Base64Facts.

Section Base64Inj.

Lemma char_not_pad (n : Z) : Base64.char n <> "="%char.
Proof.
  intros E. pose proof (char_not_stripped n) as H. rewrite E in H. discriminate H.
Qed.

Lemma tail_inj (a b a' b' : Z) :
  is_byte a -> is_byte b -> is_byte a' -> is_byte b' ->
  Base64.char (sextet1 a) = Base64.char (sextet1 a') ->
  Base64.char (sextet2 a b) = Base64.char (sextet2 a' b') ->
  Base64.char (Z.shiftl (Z.land b 15) 2) = Base64.char (Z.shiftl (Z.land b' 15) 2) ->
  a = a' /\ b = b'.
Proof.
  intros Ha Hb Ha' Hb' E1 E2 E3.
  assert (H0 : is_byte 0) by (unfold is_byte; lia).
  change (Z.shiftl (Z.land b 15) 2) with (Z.lor (Z.shiftl (Z.land b 15) 2) 0) in E3 || idtac.
  assert (Z3 : forall x, Z.shiftl (Z.land x 15) 2 = sextet3 x 0).
  { intros x. unfold sextet3. change (Z.shiftr 0 6) with 0. now rewrite Z.lor_0_r. }
  rewrite !Z3 in E3.
  destruct (group_inj a b 0 a' b' 0) as (-> & -> & _); try assumption; now split.
Qed.

Lemma single_inj (a a' : Z) :
  is_byte a -> is_byte a' ->
  Base64.char (sextet1 a) = Base64.char (sextet1 a') ->
  Base64.char (Z.shiftl (Z.land a 3) 4) = Base64.char (Z.shiftl (Z.land a' 3) 4) ->
  a = a'.
Proof.
  intros Ha Ha' E1 E2.
  assert (H0 : is_byte 0) by (unfold is_byte; lia).
  assert (Z2 : forall x, Z.shiftl (Z.land x 3) 4 = sextet2 x 0).
  { intros x. unfold sextet2. change (Z.shiftr 0 4) with 0. now rewrite Z.lor_0_r. }
  rewrite !Z2 in E2.
  destruct (sextets12_facts a 0 Ha H0) as (R1 & R2 & Fa & _).
  destruct (sextets12_facts a' 0 Ha' H0) as (R1' & R2' & Fa' & _).
  apply char_inj in E1; [|assumption..]. apply char_inj in E2; [|assumption..].
  rewrite E1, E2 in Fa. lia.
Qed.

(** The padded encoding determines the bytes. *)
Lemma encode_inj (n : nat) (l l' : list Z) :
  (length l <= n)%nat ->
  Forall is_byte l -> Forall is_byte l' ->
  Base64.encode l = Base64.encode l' -> l = l'.
Proof.
  revert l l'. induction n as [|n IH]; intros l l' Hn Hl Hl'.
  { destruct l; [|simpl in Hn; lia].
    destruct l' as [|a' [|b' [|c' r']]]; [reflexivity | discriminate ..]. }
  destruct l as [|a [|b [|c r]]], l' as [|a' [|b' [|c' r']]];
    cbn [Base64.encode]; intros E; try discriminate E; try reflexivity;
    repeat match goal with
           | H : Forall is_byte (_ :: _) |- _ => apply Forall_cons in H as [? H]
           end.
  - injection E as E1 E2. f_equal. now apply single_inj.
  - injection E as _ _ E3. symmetry in E3. now apply char_not_pad in E3.
  - injection E as _ _ _ E4. symmetry in E4. now apply char_not_pad in E4.
  - injection E as _ _ E3. now apply char_not_pad in E3.
  - injection E as E1 E2 E3.
    destruct (tail_inj a b a' b') as [-> ->]; try assumption; reflexivity.
  - injection E as _ _ _ E4. symmetry in E4. now apply char_not_pad in E4.
  - injection E as _ _ _ E4. now apply char_not_pad in E4.
  - injection E as _ _ _ E4. now apply char_not_pad in E4.
  - injection E as E1 E2 E3 E4 Er.
    destruct (group_inj a b c a' b' c') as (-> & -> & ->); try assumption.
    f_equal. f_equal. f_equal. apply IH; try assumption. simpl in Hn. lia.
Qed.

(** For twenty bytes the padding is one character, which [rstrip] cuts
    off. *)
Lemma encode_20_padding (l : list Z) :
  length l = 20%nat ->
  Base64.encode l = Base64.urlsafe_base64_encode l ++ ["="%char].
Proof.
  intros Hl.
  do 20 (destruct l as [|? l]; [discriminate Hl|]).
  destruct l; [|discriminate Hl].
  unfold Base64.urlsafe_base64_encode, PyStr.rstrip_chars.
  cbn [Base64.encode rev app PyStr.lstrip_chars].
  change (PyStr.in_chars ["010"%char; "="%char] "="%char) with true. cbv iota.
  rewrite char_not_stripped. reflexivity.
Qed.

Lemma be_bytes_bytes (n : nat) (x : Z) : Forall is_byte (SHA1.be_bytes n x).
Proof.
  unfold SHA1.be_bytes. apply Forall_forall. intros y Hy.
  apply list_elem_of_In, in_map_iff in Hy as (i & <- & _).
  unfold is_byte. apply Z.mod_pos_bound. lia.
Qed.

Lemma digest_bytes (msg : list Z) : Forall is_byte (SHA1.digest msg).
Proof.
  unfold SHA1.digest. destruct (SHA1.hash msg) as [[[[h0 h1] h2] h3] h4].
  repeat (apply Forall_app; split); apply be_bytes_bytes.
Qed.

(** X2.  [urlhash] loses nothing of the digest: two strings have the
    same [urlhash] exactly when they have the same SHA-1 digest (the
    base64 text with its padding stripped still determines all twenty
    bytes). *)
Theorem urlhash_equal_iff_digest_equal (s t : string) :
  urlhash s = urlhash t <->
  SHA1.digest (PyStr.encode_utf8 s) = SHA1.digest (PyStr.encode_utf8 t).
Proof.
  split; [|intros E; unfold urlhash; now rewrite E].
  unfold urlhash. intros E. apply (f_equal PyStr.chars) in E.
  rewrite !chars_of_chars in E.
  apply (encode_inj 20); [rewrite digest_length; lia | apply digest_bytes ..|].
  rewrite !encode_20_padding by apply digest_length. now rewrite E.
Qed.

Lemma urlhash_determines_digest (s t : string) :
  urlhash s = urlhash t ->
  SHA1.digest (PyStr.encode_utf8 s) = SHA1.digest (PyStr.encode_utf8 t).
Proof.
  unfold urlhash. intros E. apply (f_equal PyStr.chars) in E.
  rewrite !chars_of_chars in E.
  apply (encode_inj 20); [rewrite digest_length; lia | apply digest_bytes ..|].
  rewrite !encode_20_padding by apply digest_length. now rewrite E.
Qed.

End Base64Inj.

(** * What the resolved path depends on *)

Section DigestFacts.
Context {FM : FloatModel} {IM : Imaging}.


End DigestFacts.

Section DigestExamples.
Import Binary64 Samples64.



End DigestExamples.

Section FrameFacts.
Context {FM : FloatModel} {IM : Imaging} {BE : Backend}.

Lemma keeps_file_ret {A} p (a : A) : keeps_file p (ret a).
Proof. intros w. reflexivity. Qed.

Lemma keeps_file_raise {A} p (e : exn) : keeps_file p (@raise A e).
Proof. intros w. reflexivity. Qed.

Lemma keeps_file_lift {A} p (r : result A) : keeps_file p (lift r).
Proof. intros w. reflexivity. Qed.

Lemma keeps_file_tell p (o : op) : keeps_file p (tell o).
Proof. intros w. reflexivity. Qed.

Lemma keeps_file_bind {A B} p (m : M A) (k : A -> M B) :
  keeps_file p m -> (forall a, keeps_file p (k a)) -> keeps_file p (bind m k).
Proof.
  intros Hm Hk w. unfold bind. specialize (Hm w).
  destruct (m w) as [[a|e] w']; simpl in *; [|assumption].
  now rewrite Hk.
Qed.

Lemma keeps_file_for_each {A} p (l : list A) (body : A -> M unit) :
  (forall x, In x l -> keeps_file p (body x)) -> keeps_file p (for_each l body).
Proof.
  induction l as [|x l IH]; intros Hb; simpl; [apply keeps_file_ret|].
  apply keeps_file_bind; [apply Hb; now left|].
  intros _. apply IH. intros y Hy. apply Hb. now right.
Qed.

Lemma keeps_file_try_except {A} p (m : M A) (h : exn -> M A) :
  keeps_file p m -> (forall e, keeps_file p (h e)) -> keeps_file p (try_except m h).
Proof.
  intros Hm Hh w. unfold try_except. specialize (Hm w).
  destruct (m w) as [[a|e] w']; simpl in *; [assumption|].
  now rewrite Hh.
Qed.

Lemma keeps_file_storage_exists p path : keeps_file p (storage_exists path).
Proof. intros w. reflexivity. Qed.

Lemma keeps_file_storage_open p path : keeps_file p (storage_open path).
Proof.
  intros w. unfold storage_open, bind, tell. cbn [files add_log].
  now destruct (files w !! path).
Qed.

Lemma keeps_file_storage_delete p path :
  p <> path -> keeps_file p (storage_delete path).
Proof.
  intros Hne w. unfold storage_delete, bind, tell. cbn [broken add_log].
  destruct (bool_decide _); [reflexivity|].
  cbn [snd files set_files add_log]. now apply lookup_delete_ne.
Qed.

(** [save] may write to the requested path or, when that is taken, to
    the alternative the backend picks. *)
Lemma keeps_file_storage_save p path content :
  p <> path -> (forall fs, p <> alternative_name fs path) ->
  keeps_file p (storage_save path content).
Proof.
  intros Hne Halt w. unfold storage_save, get_available_name, bind, tell.
  destruct (files w !! path); cbn [broken add_log];
    (destruct (bool_decide _); [reflexivity|]);
    cbn [snd files set_files add_log]; apply lookup_insert_ne; auto.
Qed.

End FrameFacts.

Section Outcomes.
Context {FM : FloatModel} {IM : Imaging} {BE : Backend}.

(** The two ways a generation can end: with an exception, having logged
    some operations and changed no file (and having attempted no write
    unless the exception is the storage's), or normally, with the
    encoded bytes at the target. *)
Lemma generate_outcome (self : ImageFieldFile) (processors : list Processor)
    (target : string) (w : World) :
  (exists e ops,
     generate self processors target w = (Raise e, add_log ops w)
     /\ (e <> StorageError -> existsb is_write ops = false))
  \/ (exists buf,
        generate self processors target w =
          (Ok tt,
           add_log [OpOpen (name self); OpDecode; OpPipeline; OpEncode;
                    OpDelete target; OpSave target buf]
                   (set_files (<[target := buf]> (files w)) w))).
Proof.
  destruct (String.eqb (name self) "") eqn:Hname.
  { left. exists ValueError, []. rewrite add_log_nil. split; [|reflexivity].
    unfold generate, file_open. now rewrite Hname. }
  destruct (files w !! name self) as [orig|] eqn:Hsrc; cycle 1.
  { left. exists FileNotFoundError, [OpOpen (name self)]. split; [|reflexivity].
    unfold generate, file_open. rewrite Hname.
    unfold bind at 1. unfold storage_open, bind at 1, tell. cbn [files add_log].
    now rewrite Hsrc. }
  assert (Hgen : generate self processors target w =
    (_ <- tell OpDecode ;;
     image <- lift (image_open orig) ;;
     ppoi <- lift (_ppoi self) ;;
     handler <- lift (build_handler processors) ;;
     _ <- tell OpPipeline ;;
     r <- lift (handler image (ppoi, no_kwargs)) ;;
     let '(image', context) := r in
     _ <- tell OpEncode ;;
     buf <- lift (image_save image' (image_format image) (snd context)) ;;
     _ <- storage_delete target ;;
     _ <- storage_save target buf ;;
     ret tt) (add_log [OpOpen (name self)] w)).
  { unfold generate, file_open. rewrite Hname.
    unfold bind at 1. unfold storage_open, bind at 1, tell. cbn [files add_log].
    rewrite Hsrc. reflexivity. }
  rewrite Hgen. clear Hgen.
  unfold bind, lift, tell, ret.
  destruct (image_open orig) as [image|e] eqn:Hdec; cycle 1.
  { left. exists e, [OpOpen (name self); OpDecode]. rewrite add_log_app.
    split; [reflexivity | intros _; reflexivity]. }
  destruct (_ppoi self) as [ppoi|e] eqn:Hp; cycle 1.
  { left. exists e, [OpOpen (name self); OpDecode]. rewrite add_log_app.
    split; [reflexivity | intros _; reflexivity]. }
  destruct (build_handler processors) as [handler|e] eqn:Hb; cycle 1.
  { left. exists e, [OpOpen (name self); OpDecode]. rewrite add_log_app.
    split; [reflexivity | intros _; reflexivity]. }
  destruct (handler image (ppoi, no_kwargs)) as [[image' ctx']|e] eqn:Hh; cycle 1.
  { left. exists e, [OpOpen (name self); OpDecode; OpPipeline]. rewrite !add_log_app.
    split; [reflexivity | intros _; reflexivity]. }
  destruct (image_save image' (image_format image) ctx'.2) as [buf|e] eqn:Hs; cycle 1.
  { left. exists e, [OpOpen (name self); OpDecode; OpPipeline; OpEncode].
    rewrite !add_log_app. split; [reflexivity | intros _; reflexivity]. }
  unfold storage_delete, bind, tell. cbn [broken add_log].
  destruct (bool_decide _) eqn:Hbr.
  { left. exists StorageError,
      [OpOpen (name self); OpDecode; OpPipeline; OpEncode; OpDelete target].
    rewrite !add_log_app. split; [reflexivity | intros H; now destruct H]. }
  right. exists buf. apply bool_decide_eq_false_1 in Hbr.
  unfold storage_save, get_available_name, bind, tell.
  cbn [files set_files add_log broken]. rewrite lookup_delete_eq.
  rewrite (bool_decide_eq_false_2 _ Hbr).
  unfold set_files, add_log. cbn [files broken db log].
  rewrite insert_delete_eq, <- !app_assoc. reflexivity.
Qed.

(** The same for [process]: an exception without any change of a file,
    a cache hit, or a generation. *)
Lemma process_outcome (self : ImageFieldFile) (item : string) (force : bool)
    (w : World) :
  (exists e ops,
     process self item force w = (Raise e, add_log ops w)
     /\ (e <> StorageError -> existsb is_write ops = false))
  \/ (exists processors target,
        dict_get (formats (field self)) item = Some processors
        /\ _processed_name self processors = Ok target
        /\ ((force = false /\ is_Some (files w !! target)
             /\ process self item force w = (Ok tt, add_log [OpExists target] w))
            \/ (exists buf,
                  process self item force w =
                    (Ok tt,
                     add_log ((if force then [] else [OpExists target])
                                ++ [OpOpen (name self); OpDecode; OpPipeline;
                                    OpEncode; OpDelete target; OpSave target buf])
                             (set_files (<[target := buf]> (files w)) w))))).
Proof.
  destruct (dict_get (formats (field self)) item) as [processors|] eqn:Hd; cycle 1.
  { left. exists KeyError, []. rewrite add_log_nil. unfold process. rewrite Hd.
    now split. }
  destruct (_processed_name self processors) as [target|e] eqn:Ht; cycle 1.
  { left. exists e, []. rewrite add_log_nil. unfold process. rewrite Hd, Ht.
    now split. }
  assert (Hproc : process self item force w =
            if force then generate self processors target w
            else if bool_decide (is_Some (files w !! target))
                 then (Ok tt, add_log [OpExists target] w)
                 else generate self processors target (add_log [OpExists target] w)).
  { unfold process. rewrite Hd, Ht. destruct force; [reflexivity|].
    unfold bind, lift, storage_exists, tell, ret. unfold bind.
    cbn [files add_log]. now destruct (bool_decide _). }
  rewrite Hproc. clear Hproc.
  destruct force.
  - destruct (generate_outcome self processors target w)
      as [(e & ops & E & Hops) | (buf & E)].
    + left. exists e, ops. now split.
    + right. exists processors, target. split; [reflexivity|]. split; [exact Ht|].
      right. exists buf. exact E.
  - destruct (bool_decide (is_Some (files w !! target))) eqn:Hex.
    + right. exists processors, target. split; [reflexivity|]. split; [exact Ht|].
      left. apply bool_decide_eq_true_1 in Hex.
      split; [reflexivity|]. split; [exact Hex | reflexivity].
    + destruct (generate_outcome self processors target (add_log [OpExists target] w))
        as [(e & ops & E & Hops) | (buf & E)].
      * left. exists e, (OpExists target :: ops). rewrite E, add_log_app.
        split; [reflexivity|]. intros He. cbn [existsb is_write orb]. now apply Hops.
      * right. exists processors, target. split; [reflexivity|]. split; [exact Ht|].
        right. exists buf. rewrite E. f_equal.
        unfold add_log, set_files. cbn [files broken db log app].
        now rewrite <- app_assoc.
Qed.

End Outcomes.

Section Frames.
Context {FM : FloatModel} {IM : Imaging} {BE : Backend}.

(** X6.  Whatever its outcome, with or without [force], [process]
    leaves every file other than the resolved target of the format as it
    was. *)
Theorem process_changes_only_target
    (self : ImageFieldFile) (item : string) (force : bool) (w : World) (p : string) :
  (forall processors,
     dict_get (formats (field self)) item = Some processors ->
     _processed_name self processors <> Ok p) ->
  files (snd (process self item force w)) !! p = files w !! p.
Proof.
  intros Hp.
  destruct (process_outcome self item force w)
    as [(e & ops & -> & _)
       | (processors & target & Hd & Ht & [(_ & _ & ->) | (buf & ->)])];
    try reflexivity.
  cbn [snd files add_log set_files]. apply lookup_insert_ne.
  intros ->. now apply (Hp processors).
Qed.

(** X7.  When [process] raises anything but a storage error (unknown
    format, unparsable PPOI, missing or undecodable source, unknown
    processor, failing pipeline or encoder), it has attempted neither
    [storage.delete] nor [storage.save] and all files are as before: an
    existing derivative is only deleted once the new one is encoded. *)
Theorem process_failure_keeps_files
    (self : ImageFieldFile) (item : string) (force : bool) (w w1 : World) (e : exn) :
  process self item force w = (Raise e, w1) ->
  e <> StorageError ->
  files w1 = files w
  /\ exists ops, w1 = add_log ops w /\ existsb is_write ops = false.
Proof.
  intros H He.
  destruct (process_outcome self item force w)
    as [(e' & ops & E & Hops)
       | (processors & target & Hd & Ht & [(_ & _ & E) | (buf & E)])];
    rewrite E in H; try discriminate H.
  injection H as -> <-. split; [reflexivity|]. exists ops. split; [reflexivity|].
  now apply Hops.
Qed.

Lemma processed_name_prefix (self : ImageFieldFile) (processors : list Processor)
    (target : string) :
  _processed_name self processors = Ok target ->
  PyStr.startswith "__processed__/" target = true.
Proof. intros (ppoi & _ & ->)%processed_name_inv. apply prefix_app. Qed.

Lemma keeps_file_process (p : string) (self : ImageFieldFile) (item : string)
    (force : bool) :
  PyStr.startswith "__processed__/" p = false ->
  keeps_file p (process self item force).
Proof.
  intros Hp w.
  destruct (process_outcome self item force w)
    as [(e & ops & -> & _)
       | (processors & target & Hd & Ht & [(_ & _ & ->) | (buf & ->)])];
    try reflexivity.
  cbn [snd files add_log set_files]. apply lookup_insert_ne.
  intros ->. apply processed_name_prefix in Ht. congruence.
Qed.

(** X10.  Neither the batch command nor the post-save hook changes,
    creates or deletes a file whose path does not start with
    ['__processed__/']: source images are never touched. *)
Theorem sources_are_never_changed
    (p : string) (self : Command) (IMAGE_FIELDS : list ImageField)
    (fields : list string) (force : bool) (fld : ImageField) (i : Instance)
    (w : World) :
  PyStr.startswith "__processed__/" p = false ->
  files (snd (handle self IMAGE_FIELDS fields force w)) !! p = files w !! p
  /\ files (snd (_generate_files fld i w)) !! p = files w !! p.
Proof.
  intros Hp. split.
  - revert w. unfold handle. apply keeps_file_for_each. intros field _.
    unfold handle_field. destruct (_skip_field _ _); [apply keeps_file_ret|].
    apply keeps_file_bind; [intros w; reflexivity|]. intros records.
    apply keeps_file_for_each. intros r _. unfold handle_record.
    destruct (String.eqb _ _); [apply keeps_file_ret|].
    apply keeps_file_for_each. intros key _.
    apply keeps_file_try_except; [now apply keeps_file_process|].
    intros e. apply keeps_file_ret.
  - revert w. unfold _generate_files. apply keeps_file_for_each. intros key _.
    now apply keeps_file_process.
Qed.

(** *** The post-save hook *)

Lemma process_hit (self : ImageFieldFile) (item : string)
    (processors : list Processor) (target : string) (w : World) :
  dict_get (formats (field self)) item = Some processors ->
  _processed_name self processors = Ok target ->
  is_Some (files w !! target) ->
  process self item false w = (Ok tt, add_log [OpExists target] w).
Proof.
  intros Hd Ht Hex. unfold process. rewrite Hd, Ht.
  unfold bind, lift, storage_exists, tell, ret. unfold bind. cbn [files add_log].
  now rewrite (bool_decide_eq_true_2 _ Hex).
Qed.

Lemma process_ok_generated (self : ImageFieldFile) (item : string) (w w1 : World) :
  process self item false w = (Ok tt, w1) ->
  generated self w1 item
  /\ (forall p, is_Some (files w !! p) -> is_Some (files w1 !! p)).
Proof.
  intros H.
  destruct (process_outcome self item false w)
    as [(e' & ops & E & Hops)
       | (processors & target & Hd & Ht & [(_ & Hex & E) | (buf & E)])];
    rewrite E in H; try discriminate H; injection H as <-.
  - split; [now exists processors, target | auto].
  - split.
    + exists processors, target. repeat split; try assumption.
      cbn [files add_log set_files]. rewrite lookup_insert_eq. now exists buf.
    + intros p Hp. cbn [files add_log set_files].
      rewrite lookup_insert_is_Some. destruct (decide (target = p)); auto.
Qed.

Lemma generated_mono (self : ImageFieldFile) (w w1 : World) (item : string) :
  (forall p, is_Some (files w !! p) -> is_Some (files w1 !! p)) ->
  generated self w item -> generated self w1 item.
Proof.
  intros Hm (processors & target & Hd & Ht & Hex).
  exists processors, target. auto.
Qed.

Lemma for_each_process_ok (self : ImageFieldFile) (keys : list string) (w w1 : World) :
  for_each keys (fun item => process self item false) w = (Ok tt, w1) ->
  (forall p, is_Some (files w !! p) -> is_Some (files w1 !! p))
  /\ Forall (generated self w1) keys.
Proof.
  revert w. induction keys as [|k keys IH]; intros w; simpl.
  - intros [= <-]. split; [auto | constructor].
  - unfold bind. destruct (process self k false w) as [[[]|e] w'] eqn:Hk; [|discriminate].
    intros Hrest. apply process_ok_generated in Hk as [Hgen Hmono].
    apply IH in Hrest as [Hmono' Hall]. split; [auto|].
    constructor; [|assumption]. now apply (generated_mono self w').
Qed.

Lemma for_each_process_hits (self : ImageFieldFile) (keys : list string) (w : World) :
  Forall (generated self w) keys ->
  exists ops,
    for_each keys (fun item => process self item false) w = (Ok tt, add_log ops w)
    /\ forallb is_exists_check ops = true
    /\ length ops = length keys.
Proof.
  revert w. induction keys as [|k keys IH]; intros w Hall; simpl.
  - exists []. rewrite add_log_nil. now repeat split.
  - inversion Hall as [|? ? (processors & target & Hd & Ht & Hex) Hrest]; subst.
    unfold bind. rewrite (process_hit self k processors target w Hd Ht Hex).
    destruct (IH (add_log [OpExists target] w)) as (ops & E & Hops & Hlen).
    { eapply Forall_impl; [exact Hrest|]. intros item. now apply generated_mono. }
    exists (OpExists target :: ops). rewrite E, add_log_app.
    repeat split; [assumption | simpl; now rewrite Hlen].
Qed.

(** X8.  When the post-save hook [_generate_files] has returned
    normally, running it again for the same record performs one
    [storage.exists] call per format and nothing else: no file is opened,
    deleted or written. *)
Theorem generate_files_twice (fld : ImageField) (i : Instance) (w w1 : World) :
  _generate_files fld i w = (Ok tt, w1) ->
  exists ops,
    _generate_files fld i w1 = (Ok tt, add_log ops w1)
    /\ forallb is_exists_check ops = true
    /\ length ops = length (formats fld).
Proof.
  unfold _generate_files. cbn [field fieldfile].
  intros [_ Hall]%for_each_process_ok.
  destruct (for_each_process_hits _ _ _ Hall) as (ops & E & Hops & Hlen).
  exists ops. repeat split; try assumption.
  rewrite Hlen. unfold dict_keys. apply length_map.
Qed.

(** X9.  Unlike the batch command, the post-save hook does not catch
    anything: if the derivative of the first format is missing and the
    source does not decode, [_generate_files] raises the decoder's
    exception after the existence check, the open and the decode
    attempt, and the remaining formats are not tried. *)
Theorem generate_files_raises_on_undecodable
    (fld : ImageField) (i : Instance) (key : string) (processors : list Processor)
    (rest : list (string * list Processor)) (target : string) (orig : list Z)
    (e : exn) (w : World) :
  formats fld = (key, processors) :: rest ->
  _processed_name (fieldfile i fld) processors = Ok target ->
  files w !! target = None ->
  name (fieldfile i fld) <> EmptyString ->
  files w !! name (fieldfile i fld) = Some orig ->
  image_open orig = Raise e ->
  _generate_files fld i w =
    (Raise e, add_log [OpExists target; OpOpen (name (fieldfile i fld)); OpDecode] w).
Proof.
  intros Hf Ht Hnone Hname Hsrc Hdec.
  unfold _generate_files. cbn [field fieldfile]. rewrite Hf. cbn [dict_keys map fst for_each].
  unfold bind at 1. unfold process. cbn [field fieldfile]. rewrite Hf.
  cbn [dict_get]. rewrite String.eqb_refl.
  change (_processed_name _ processors) with (_processed_name (fieldfile i fld) processors).
  rewrite Ht.
  unfold bind, lift, storage_exists, tell, ret. unfold bind. cbn [files add_log].
  rewrite bool_decide_eq_false_2 by (rewrite Hnone; apply is_Some_None).
  unfold generate, file_open. rewrite (eqb_name_false _ Hname).
  unfold bind at 1. unfold storage_open, bind at 1, tell. cbn [files add_log].
  rewrite Hsrc. unfold bind, lift, tell. rewrite Hdec.
  rewrite !add_log_app. reflexivity.
Qed.

End Frames.

Section LowerFacts.

Lemma lower_char_not_upper (a : ascii) : is_upper (PyStr.lower_char a) = false.
Proof. destruct a as [[] [] [] [] [] [] [] []]; reflexivity. Qed.

Lemma has_upper_of_chars (l : list ascii) :
  has_upper (PyStr.of_chars l) = existsb is_upper l.
Proof. unfold has_upper. now rewrite chars_of_chars. Qed.

Lemma lower_no_upper (s : string) : has_upper (PyStr.lower s) = false.
Proof.
  unfold PyStr.lower. rewrite has_upper_of_chars.
  induction (PyStr.chars s) as [|a l IH]; simpl; [reflexivity|].
  now rewrite lower_char_not_upper, IH.
Qed.

Lemma has_upper_app (s t : string) :
  has_upper (s +:+ t) = has_upper s || has_upper t.
Proof. unfold has_upper. now rewrite chars_app, existsb_app. Qed.

Lemma existsb_rev {A} (f : A -> bool) (l : list A) :
  existsb f (rev l) = existsb f l.
Proof.
  induction l as [|a l IH]; [reflexivity|].
  simpl. rewrite existsb_app, IH. simpl. now rewrite orb_false_r, orb_comm.
Qed.

Lemma split_chars_no_upper (c : ascii) (cur l : list ascii) :
  existsb is_upper cur = false -> existsb is_upper l = false ->
  Forall (fun piece => has_upper piece = false) (PyStr.split_chars c cur l).
Proof.
  revert cur. induction l as [|a l IH]; intros cur Hcur Hl; simpl.
  - constructor; [|constructor]. rewrite has_upper_of_chars, existsb_rev. exact Hcur.
  - simpl in Hl. apply orb_false_iff in Hl as [Ha Hl].
    destruct (Ascii.eqb a c).
    + constructor; [|now apply IH].
      rewrite has_upper_of_chars, existsb_rev. exact Hcur.
    + apply IH; [|assumption]. simpl. now rewrite Ha, Hcur.
Qed.

Lemma split_no_upper (c : ascii) (s : string) :
  has_upper s = false ->
  Forall (fun piece => has_upper piece = false) (PyStr.split c s).
Proof. intros H. now apply split_chars_no_upper. Qed.

Lemma join_no_upper (parts : list string) :
  Forall (fun piece => has_upper piece = false) parts ->
  has_upper (PyStr.join "." parts) = false.
Proof.
  induction 1 as [|p parts Hp Hparts IH]; [reflexivity|].
  destruct parts as [|q parts]; [exact Hp|].
  change (PyStr.join "." (p :: q :: parts))
    with (p +:+ "." +:+ PyStr.join "." (q :: parts)).
  rewrite !has_upper_app, Hp, IH. reflexivity.
Qed.

Lemma filter_key_no_upper (field : string) : has_upper (filter_key field) = false.
Proof.
  unfold filter_key. apply join_no_upper, Forall_take, split_no_upper, lower_no_upper.
Qed.

Lemma filter_names_no_upper (field : string) :
  Forall (fun n => has_upper n = false) (filter_names field).
Proof.
  unfold filter_names. apply Forall_drop, split_no_upper, lower_no_upper.
Qed.

End LowerFacts.

Section FilterFacts.
Context {FM : FloatModel} {IM : Imaging} {BE : Backend}.

Lemma fold_filter_add (fields : list string) (m : gmap string (list string)) :
  fold_left (fun self field => filter_add field self) fields {| _filter := Some m |}
  = {| _filter :=
         Some (fold_left (fun m f => <[filter_key f := filter_names f]> m) fields m) |}.
Proof.
  revert m. induction fields as [|f fields IH]; intros m; simpl; [reflexivity|].
  unfold filter_add at 2. cbn [_filter option_map].
  fold (filter_key f). fold (filter_names f). apply IH.
Qed.

Lemma make_filter_map (self : Command) (fields : list string) :
  _filter (_make_filter self fields) =
    Some (fold_left (fun m f => <[filter_key f := filter_names f]> m) fields ∅).
Proof. unfold _make_filter. now rewrite fold_filter_add. Qed.

(** X11.  [_make_filter] keeps one entry per model: the entry of a key
    is the list of names of the last filter argument with that key, so
    of two arguments for the same model only the later one counts. *)
Theorem make_filter_last_wins (self : Command) (fields : list string) :
  exists m,
    _filter (_make_filter self fields) = Some m
    /\ forall key,
         m !! key = filter_names <$> last (filter (fun f => filter_key f = key) fields).
Proof.
  eexists. split; [apply make_filter_map|]. intros key.
  induction fields as [|f fields IH] using rev_ind; [apply lookup_empty|].
  rewrite fold_left_app, filter_app. cbn [fold_left].
  destruct (decide (filter_key f = key)) as [<-|Hne].
  - rewrite lookup_insert_eq.
    rewrite (filter_cons_True _ f) by reflexivity. rewrite filter_nil.
    now rewrite last_snoc.
  - rewrite lookup_insert_ne by assumption.
    rewrite (filter_cons_False _ f) by assumption. rewrite filter_nil, app_nil_r.
    exact IH.
Qed.

Lemma make_filter_lower (self : Command) (fields : list string)
    (m : gmap string (list string)) (key : string) (names : list string) :
  _filter (_make_filter self fields) = Some m ->
  m !! key = Some names ->
  has_upper key = false /\ Forall (fun n => has_upper n = false) names.
Proof.
  rewrite make_filter_map. intros [= <-]. revert key names.
  induction fields as [|f fields IH] using rev_ind; intros key names.
  - cbn [fold_left]. rewrite lookup_empty. discriminate.
  - rewrite fold_left_app. cbn [fold_left].
    destruct (decide (filter_key f = key)) as [<-|Hne].
    + rewrite lookup_insert_eq. intros [= <-].
      split; [apply filter_key_no_upper | apply filter_names_no_upper].
    + rewrite lookup_insert_ne by assumption. apply IH.
Qed.

Lemma has_upper_neq (s t : string) :
  has_upper s = true -> has_upper t = false -> s <> t.
Proof. intros Hs Ht ->. congruence. Qed.

(** X12.  [_make_filter] lower-cases its arguments but [_skip_field]
    looks up [label_lower] as it is: a field whose model has an upper-case
    letter in [label_lower] (an app label with capitals) is skipped
    whatever filter arguments are given. *)
Theorem upper_case_label_is_always_skipped
    (self : Command) (fields : list string) (fld : ImageField) :
  has_upper (label_lower fld) = true ->
  _skip_field (_make_filter self fields) fld = true.
Proof.
  intros Hup. unfold _skip_field.
  destruct (_filter (_make_filter self fields)) as [m|] eqn:Hm.
  - destruct (m !! label_lower fld) as [names|] eqn:Hl; [|reflexivity].
    destruct (make_filter_lower self fields m _ _ Hm Hl) as [Hk _]. congruence.
  - rewrite make_filter_map in Hm. discriminate Hm.
Qed.

(** X13.  For the same reason a field whose name has an upper-case
    letter is skipped by every filter that names fields of its model: it
    cannot be selected by name. *)
Theorem upper_case_field_cannot_be_named
    (self : Command) (fields : list string) (fld : ImageField)
    (m : gmap string (list string)) (n : string) (names : list string) :
  has_upper (field_name fld) = true ->
  _filter (_make_filter self fields) = Some m ->
  m !! label_lower fld = Some (n :: names) ->
  _skip_field (_make_filter self fields) fld = true.
Proof.
  intros Hup Hm Hl. unfold _skip_field. rewrite Hm, Hl.
  destruct (make_filter_lower self fields m _ _ Hm Hl) as [_ Hnames].
  apply negb_true_iff. apply not_true_is_false. intros Hex.
  apply existsb_exists in Hex as (x & Hin & Heq).
  apply String.eqb_eq in Heq. subst x.
  rewrite Forall_forall in Hnames. apply list_elem_of_In in Hin.
  specialize (Hnames _ Hin). congruence.
Qed.

(** X14.  The [formats] property looks the field up in
    [IMAGEFIELD_FORMATS] under a lower-cased key: an entry under a key
    with an upper-case letter is never used, whatever the field. *)
Theorem formats_setting_key_is_lower_case
    (setting : gmap string (list (string * list Processor)))
    (key : string) (value : list (string * list Processor))
    (label_lower name : string) (_formats : list (string * list Processor)) :
  has_upper key = true ->
  resolve_formats (Some (<[key := value]> setting)) label_lower name _formats
  = resolve_formats (Some setting) label_lower name _formats.
Proof.
  intros Hup. unfold resolve_formats. cbn [from_option id].
  rewrite lookup_insert_ne; [reflexivity|].
  apply has_upper_neq; [assumption | apply lower_no_upper].
Qed.


End FilterFacts.



Section FurtherExamples.
Import Demo Samples.

Lemma processed_name_under_base_witness :
  PyStr.startswith "__processed__/RB/0FE7Lu5G6ptcSBUA_LYkQUQ1g_" thumb_path = true.
Proof.
  assert (H : _processed_name file_a thumb = Ok thumb_path)
    by (vm_compute; reflexivity).
  exact (proj1 (processed_name_under_base file_a thumb thumb_path H)).
Defined.

Lemma base_prefix_identifies_source_witness :
  urlhash (name file_a) = urlhash (name file_a')
  /\ _processed_base file_a = _processed_base file_a'.
Proof.
  apply (base_prefix_identifies_source file_a file_a' thumb thumb_path);
    vm_compute; reflexivity.
Defined.

Lemma processed_name_keeps_extension_witness :
  snd (splitext thumb_path) = ".jpg".
Proof.
  assert (H : _processed_name file_a thumb = Ok thumb_path)
    by (vm_compute; reflexivity).
  rewrite (processed_name_keeps_extension file_a thumb thumb_path H).
  vm_compute. reflexivity.
Defined.

Lemma process_changes_only_target_witness :
  files (snd (process file_a "thumb" true stale_world)) !! "photos/a.jpg" = Some jpeg.
Proof.
  rewrite (process_changes_only_target file_a "thumb" true stale_world "photos/a.jpg").
  - vm_compute. reflexivity.
  - intros processors Hd. vm_compute in Hd. injection Hd as <-.
    vm_compute. discriminate.
Defined.

Lemma process_failure_keeps_files_witness :
  exists w1,
    process (fieldfile (photo "photos/bad.jpg" "0.5x0.5") photo_field) "thumb" false
      batch_world = (Raise DecodeError, w1)
    /\ files w1 = files batch_world.
Proof.
  eexists. split; [vm_compute; reflexivity|].
  refine (proj1 (process_failure_keeps_files
                   (fieldfile (photo "photos/bad.jpg" "0.5x0.5") photo_field)
                   "thumb" false batch_world _ DecodeError _ _)).
  - vm_compute. reflexivity.
  - discriminate.
Defined.

Lemma generate_files_twice_witness :
  exists w1 ops,
    _generate_files photo_field (photo "photos/a.jpg" "0.5x0.5") fresh_world = (Ok tt, w1)
    /\ _generate_files photo_field (photo "photos/a.jpg" "0.5x0.5") w1
       = (Ok tt, add_log ops w1)
    /\ length ops = 2%nat.
Proof.
  eexists.
  match goal with
  | |- exists ops, ?first = (Ok tt, ?w1) /\ _ =>
      assert (H : first = (Ok tt, w1)) by (vm_compute; reflexivity)
  end.
  destruct (generate_files_twice _ _ _ _ H) as (ops & E & _ & Hlen).
  exists ops. split; [exact H|]. split; [exact E | exact Hlen].
Defined.

Lemma generate_files_raises_on_undecodable_witness :
  _generate_files photo_field (photo "photos/bad.jpg" "0.5x0.5") batch_world =
    (Raise DecodeError,
     add_log [OpExists "__processed__/Nq/HMlkKHnYUcGyc0r1z0P9iFCRE_JldRySV912xz1PLdp4lX4XcXpf0.jpg";
              OpOpen "photos/bad.jpg"; OpDecode] batch_world).
Proof.
  apply (generate_files_raises_on_undecodable photo_field
           (photo "photos/bad.jpg" "0.5x0.5") "thumb" thumb [("desktop", desktop)]
           _ [0; 0]).
  - reflexivity.
  - vm_compute. reflexivity.
  - vm_compute. reflexivity.
  - vm_compute. discriminate.
  - vm_compute. reflexivity.
  - reflexivity.
Defined.

Lemma sources_are_never_changed_witness :
  files (snd (handle {| _filter := None |} [photo_field] ["app.Photo"] true batch_world))
    !! "photos/a.jpg" = Some jpeg.
Proof.
  assert (Hp : PyStr.startswith "__processed__/" "photos/a.jpg" = false)
    by (vm_compute; reflexivity).
  rewrite (proj1 (sources_are_never_changed "photos/a.jpg" {| _filter := None |}
                    [photo_field] ["app.Photo"] true photo_field
                    (photo "photos/a.jpg" "0.5x0.5") batch_world Hp)).
  vm_compute. reflexivity.
Defined.

(** X11 on a concrete command line: of the two arguments for the photo
    model only the second is kept, so the field [image] is skipped. *)
Example second_filter_replaces_first :
  _skip_field (_make_filter {| _filter := None |} ["app.Photo.image"; "app.Photo.teaser"])
    photo_field = true
  /\ _skip_field (_make_filter {| _filter := None |} ["app.Photo.teaser"; "app.Photo.image"])
       photo_field = false.
Proof. split; vm_compute; reflexivity. Qed.

Lemma upper_case_label_is_always_skipped_witness :
  _skip_field (_make_filter {| _filter := None |} ["myApp.Photo"; "myapp.photo"])
    {| label := "myApp.Photo"; label_lower := "myApp.photo"; field_name := "image";
       formats := []; ppoi_field := None |} = true.
Proof. apply upper_case_label_is_always_skipped. vm_compute. reflexivity. Defined.

Lemma upper_case_field_cannot_be_named_witness :
  _skip_field (_make_filter {| _filter := None |} ["app.Photo.Image"])
    {| label := "app.Photo"; label_lower := "app.photo"; field_name := "Image";
       formats := []; ppoi_field := None |} = true.
Proof.
  eapply upper_case_field_cannot_be_named.
  - vm_compute. reflexivity.
  - apply make_filter_map.
  - vm_compute. reflexivity.
Defined.

Lemma formats_setting_key_is_lower_case_witness :
  resolve_formats (Some (<["App.Photo.image" := [("teaser", thumb)]]> ∅))
    "app.photo" "image" [("thumb", thumb)] = [("thumb", thumb)].
Proof.
  rewrite (formats_setting_key_is_lower_case (IM := toy_imaging))
    by (vm_compute; reflexivity).
  vm_compute. reflexivity.
Defined.


End FurtherExamples.

Section HookFacts.
Context {FM : FloatModel} {IM : Imaging} {BE : Backend}.

Lemma dict_get_keys {V} (d : list (string * V)) (key : string) (v : V) :
  dict_get d key = Some v -> In key (dict_keys d).
Proof.
  induction d as [|[k x] d IH]; simpl; [discriminate|].
  destruct (String.eqb_spec k key) as [->|]; [now left | right; now apply IH].
Qed.

(** [process] reads nothing of what a field file has memoized. *)
Lemma process_ignores_memo
    (fld : ImageField) (i : Instance) (m : gmap string string)
    (item : string) (force : bool) :
  process (cached_fieldfile i fld m) item force =
  process (fieldfile i fld) item force.
Proof. reflexivity. Qed.

(** X16.  When the post-save hook returns normally for a record whose
    image attribute holds a name, every declared format of the field
    has its derivative in the storage.  Attribute access on the
    record's field file then gives, for a format that the field file has
    not memoized, the URL of that existing file; for a format memoized
    earlier it gives the memoized URL as it is, without looking at the
    storage or at the PPOI (so after a change of the PPOI the URL can
    belong to the old derivative). *)
Theorem generate_files_makes_fresh_urls_valid
    (fld : ImageField) (i : Instance) (s : string) (w w1 : World) :
  getattr i (field_name fld) = Some (PyStr s) ->
  _generate_files fld i w = (Ok tt, w1) ->
  forall item processors,
    dict_get (formats fld) item = Some processors ->
    exists target,
      is_Some (files w1 !! target)
      /\ forall (m : gmap string string) (w' : World),
           _processed_name (cached_fieldfile i fld m) processors = Ok target
           /\ get_attribute (cached_fieldfile i fld m) item w' =
               match m !! item with
               | None =>
                   (Ok (storage_url target,
                        set_memo (cached_fieldfile i fld m) item (storage_url target)),
                    add_log [OpUrl target] w')
               | Some url => (Ok (url, cached_fieldfile i fld m), w')
               end.
Proof.
  intros _. unfold _generate_files. cbn [field fieldfile].
  intros [_ Hall]%for_each_process_ok item processors Hd.
  rewrite Forall_forall in Hall.
  destruct (Hall item) as (processors' & target & Hd' & Ht & Hex).
  { apply list_elem_of_In. eapply dict_get_keys. exact Hd. }
  cbn [field fieldfile] in Hd'. rewrite Hd in Hd'. injection Hd' as <-.
  exists target. split; [exact Hex|].
  intros m w'. split; [exact Ht|].
  unfold get_attribute. cbn [memo cached_fieldfile].
  destruct (m !! item) as [url|]; [reflexivity|].
  unfold __getattr__. cbn [field cached_fieldfile]. rewrite Hd.
  change (_processed_name _ processors)
    with (_processed_name (fieldfile i fld) processors).
  rewrite Ht. reflexivity.
Qed.

(** X17.  The post-save hook has no guard for records without an image:
    for a record whose image name is the empty string and a field with
    at least one format, it raises [ValueError] (the field file has no
    file to open) right after the existence check, unless a file happens
    to lie at the path resolved for the empty name. *)
Theorem generate_files_raises_without_image
    (fld : ImageField) (i : Instance) (key : string) (processors : list Processor)
    (rest : list (string * list Processor)) (target : string) (w : World) :
  getattr i (field_name fld) = Some (PyStr "") ->
  formats fld = (key, processors) :: rest ->
  _processed_name (fieldfile i fld) processors = Ok target ->
  files w !! target = None ->
  _generate_files fld i w = (Raise ValueError, add_log [OpExists target] w)
  /\ handle_record fld false i w = (Ok tt, w).
Proof.
  intros Hattr Hf Ht Hnone.
  assert (Hname : name (fieldfile i fld) = EmptyString).
  { unfold fieldfile. cbn [name]. now rewrite Hattr. }
  split.
  - unfold _generate_files. cbn [field fieldfile]. rewrite Hf.
    cbn [dict_keys map fst for_each].
    unfold bind at 1. unfold process. cbn [field fieldfile]. rewrite Hf.
    cbn [dict_get]. rewrite String.eqb_refl.
    change (_processed_name _ processors)
      with (_processed_name (fieldfile i fld) processors).
    rewrite Ht.
    unfold bind, lift, storage_exists, tell, ret. unfold bind. cbn [files add_log].
    rewrite bool_decide_eq_false_2 by (rewrite Hnone; apply is_Some_None).
    unfold generate, file_open.
    change (name _) with (name (fieldfile i fld)). rewrite Hname. reflexivity.
  - unfold handle_record. now rewrite Hname.
Qed.

End HookFacts.

Section HookExamples.
Import Demo Samples.

Lemma generate_files_makes_fresh_urls_valid_witness :
  exists w1,
    _generate_files photo_field (photo "photos/a.jpg" "0.5x0.5") fresh_world = (Ok tt, w1)
    /\ is_Some (files w1 !! thumb_path)
    /\ get_attribute file_a "thumb" w1 =
         (Ok ("/media/" +:+ thumb_path, set_memo file_a "thumb" ("/media/" +:+ thumb_path)),
          add_log [OpUrl thumb_path] w1)
    /\ get_attribute
         (cached_fieldfile (photo "photos/a.jpg" "0.5x0.5") photo_field
                           {["thumb" := "/media/stale"]}) "thumb" w1 =
         (Ok ("/media/stale",
              cached_fieldfile (photo "photos/a.jpg" "0.5x0.5") photo_field
                               {["thumb" := "/media/stale"]}), w1).
Proof.
  eexists.
  match goal with
  | |- ?first = (Ok tt, ?w1) /\ _ =>
      assert (H : first = (Ok tt, w1)) by (vm_compute; reflexivity)
  end.
  split; [exact H|].
  destruct (generate_files_makes_fresh_urls_valid photo_field
              (photo "photos/a.jpg" "0.5x0.5") "photos/a.jpg" _ _ eq_refl H
              "thumb" thumb eq_refl)
    as (target & Hex & Hurl).
  assert (Et : target = thumb_path).
  { destruct (Hurl ∅ fresh_world) as [Ht _].
    vm_compute in Ht. now injection Ht as <-. }
  subst target. split; [exact Hex|]. split.
  - exact (proj2 (Hurl ∅ _)).
  - exact (proj2 (Hurl {["thumb" := "/media/stale"]} _)).
Defined.

Lemma generate_files_raises_without_image_witness :
  _generate_files photo_field (photo "" "0.5x0.5") fresh_world =
    (Raise ValueError,
     add_log [OpExists "__processed__/2j/mj7l5rSw0yVb_vlWAYkK_YBwk_JldRySV912xz1PLdp4lX4XcXpf0"]
             fresh_world).
Proof.
  refine (proj1 (generate_files_raises_without_image photo_field (photo "" "0.5x0.5")
                   "thumb" thumb [("desktop", desktop)] _ fresh_world _ _ _ _));
    vm_compute; reflexivity.
Defined.

End HookExamples.
